(** * GNS3 device wizards: a shallow embedding

    The embedding follows [gns3/device_wizard.py] (class [DeviceWizard]) and
    [gns3/modules/iou/dialogs/iou_device_wizard.py] (class [IOUDeviceWizard]).

    A wizard is a record of the Qt widgets it owns, the attributes the two
    classes add, and the collaborators it talks to (the server registry, the
    message boxes it has opened, the requests it has issued).  Every method
    is a computation in a state-and-exception monad: Python exceptions are
    outcomes, and the state reached when one is raised is kept.

    Signal delivery belongs to Qt.  Each slot is embedded as the function Qt
    calls, and a run of the program is a sequence of such calls. *)

From Stdlib Require Import ZArith NArith String Ascii List Bool Lia DecimalString.
From stdpp Require Import base decidable option list functions gmap sets strings.

Local Open Scope string_scope.
Local Open Scope Z_scope.

(** ** Python values carried by server replies *)

Module Py.

(** Exceptions the wizard code can raise. *)
Inductive exn : Type :=
| AttributeError
| TypeError
| KeyError
| StopIteration.

(** Scalars of a decoded JSON document. *)
Inductive atom : Type :=
| ANone
| ABool (b : bool)
| AInt (z : Z)
| AStr (s : string).

(** An element of a reply, and the user data of an image combo box:
    a scalar or a [dict] from field names to scalars. *)
Inductive value : Type :=
| Atom (a : atom)
| Dict (d : gmap string atom).

(** A decoded reply: one value or a [list] of values. *)
Inductive reply : Type :=
| Value (v : value)
| List (l : list value).

(** [str(z)] for an [int]. *)
Definition str_of_Z (z : Z) : string := NilZero.string_of_int (Z.to_int z).

(** [str(n)] for a non-negative [int]. *)
Definition str_of_N (n : N) : string := NilZero.string_of_uint (N.to_uint n).

(** ["{}".format(a)]. *)
Definition format_atom (a : atom) : string :=
  match a with
  | ANone => "None"
  | ABool true => "True"
  | ABool false => "False"
  | AInt z => str_of_Z z
  | AStr s => s
  end.

(** Truth value of an atom: [None], [False], [0] and [""] are falsy. *)
Definition atom_truthy (a : atom) : bool :=
  match a with
  | ANone => false
  | ABool b => b
  | AInt z => negb (Z.eqb z 0)
  | AStr s => negb (String.eqb s "")
  end.

(** Truth value of [itemData]'s result; [None] stands for Python's [None],
    an empty [dict] is falsy. *)
Definition truthy (o : option value) : bool :=
  match o with
  | None => false
  | Some (Atom a) => atom_truthy a
  | Some (Dict d) => negb (bool_decide (d = ∅))
  end.

(** [v[key]] with a [str] key: only a [dict] can be subscripted so. *)
Definition getitem (v : value) (key : string) : exn + atom :=
  match v with
  | Atom _ => inl TypeError
  | Dict d => match d !! key with
              | Some a => inr a
              | None => inl KeyError
              end
  end.

(** [o[key]] where [o] may be [None]. *)
Definition getitem_opt (o : option value) (key : string) : exn + atom :=
  match o with
  | None => inl TypeError
  | Some v => getitem v key
  end.

(** [r[key]] on a whole reply; a [list] takes integer indices only. *)
Definition getitem_reply (r : reply) (key : string) : exn + atom :=
  match r with
  | Value v => getitem v key
  | List _ => inl TypeError
  end.

(** The characters of a [str], as iteration yields them. *)
Fixpoint chars (s : string) : list value :=
  match s with
  | EmptyString => []
  | String c t => Atom (AStr (String c EmptyString)) :: chars t
  end.

(** [iter(r)]: a [list] yields its elements, a [dict] its keys, a [str]
    its characters; other scalars are not iterable. *)
Definition iterate (r : reply) : exn + list value :=
  match r with
  | List l => inr l
  | Value (Dict d) => inr ((λ kv : string * atom, Atom (AStr kv.1)) <$> map_to_list d)
  | Value (Atom (AStr s)) => inr (chars s)
  | Value (Atom _) => inl TypeError
  end.

(** A Qt method taking a [QString] accepts a [str] only. *)
Definition as_QString (a : atom) : exn + string :=
  match a with
  | AStr s => inr s
  | _ => inl TypeError
  end.

(** [needle in hay] on [str]: substring search, case-sensitive. *)
Fixpoint contains (needle hay : string) : bool :=
  String.prefix needle hay
  || match hay with
     | EmptyString => false
     | String _ t => contains needle t
     end.

Fixpoint basename_from (acc p : string) : string :=
  match p with
  | EmptyString => acc
  | String c t =>
      if Ascii.eqb c "/"%char then basename_from EmptyString t
      else basename_from (acc +:+ String c EmptyString) t
  end.

(** [os.path.basename] of [posixpath]: what follows the last slash. *)
Definition basename (p : string) : string := basename_from EmptyString p.

End Py.

(** ** Qt widgets, as far as the wizard reads and writes them *)

Module Qt.

Record QAbstractButton : Type := {
  isChecked : bool;
  button_visible : bool
}.

Record QLineEdit : Type := {
  text : string;
  edit_visible : bool
}.

(** A combo box holds (display text, user data) pairs; the current index
    is -1 when nothing is selected. *)
Record QComboBox (D : Type) : Type := {
  items : list (string * D);
  currentIndex : Z;
  combo_visible : bool;
  combo_enabled : bool
}.
Arguments items {D} _.
Arguments currentIndex {D} _.
Arguments combo_visible {D} _.
Arguments combo_enabled {D} _.

Record QProgressDialog : Type := {
  wasCanceled : bool;
  dialog_visible : bool;
  (** [Some true] once accepted, [Some false] once rejected. *)
  result : option bool
}.

Inductive Icon : Type := Critical | Warning.

Record QMessageBox : Type := {
  icon : Icon;
  title : string;
  message : string
}.

Section Combo.
Context {D : Type}.

Definition count (c : QComboBox D) : Z := Z.of_nat (length (items c)).

Definition item_at (c : QComboBox D) (index : Z) : option (string * D) :=
  if (0 <=? index) && (index <? count c) then items c !! Z.to_nat index
  else None.

(** [itemData(index)]: the user data, [None] for an invalid index. *)
Definition itemData (c : QComboBox D) (index : Z) : option D :=
  snd <$> item_at c index.

(** [currentText()]: empty when no item is current. *)
Definition currentText (c : QComboBox D) : string :=
  match item_at c (currentIndex c) with
  | Some (t, _) => t
  | None => EmptyString
  end.

Definition clear (c : QComboBox D) : QComboBox D :=
  {| items := []; currentIndex := -1;
     combo_visible := combo_visible c; combo_enabled := combo_enabled c |}.

(** [addItem(text, userData)] appends; the first item of an empty box
    becomes the current one. *)
Definition addItem (t : string) (d : D) (c : QComboBox D) : QComboBox D :=
  {| items := items c ++ [(t, d)];
     currentIndex := if Z.eqb (count c) 0 then 0 else currentIndex c;
     combo_visible := combo_visible c; combo_enabled := combo_enabled c |}.

(** [setCurrentIndex(index)]: an index out of range selects nothing. *)
Definition setCurrentIndex (index : Z) (c : QComboBox D) : QComboBox D :=
  {| items := items c;
     currentIndex := if (0 <=? index) && (index <? count c) then index else -1;
     combo_visible := combo_visible c; combo_enabled := combo_enabled c |}.

Definition combo_setVisible (b : bool) (c : QComboBox D) : QComboBox D :=
  {| items := items c; currentIndex := currentIndex c;
     combo_visible := b; combo_enabled := combo_enabled c |}.

Definition combo_setEnabled (b : bool) (c : QComboBox D) : QComboBox D :=
  {| items := items c; currentIndex := currentIndex c;
     combo_visible := combo_visible c; combo_enabled := b |}.
End Combo.

Definition button_setVisible (b : bool) (w : QAbstractButton) : QAbstractButton :=
  {| isChecked := isChecked w; button_visible := b |}.

Definition setText (s : string) (w : QLineEdit) : QLineEdit :=
  {| text := s; edit_visible := edit_visible w |}.

Definition edit_setVisible (b : bool) (w : QLineEdit) : QLineEdit :=
  {| text := text w; edit_visible := b |}.

(** [reject()] and [accept()] close the dialog and record the result. *)
Definition reject (d : QProgressDialog) : QProgressDialog :=
  {| wasCanceled := wasCanceled d; dialog_visible := false; result := Some false |}.

Definition accept (d : QProgressDialog) : QProgressDialog :=
  {| wasCanceled := wasCanceled d; dialog_visible := false; result := Some true |}.

(** A dialog as [QProgressDialog(...)] followed by [show()] leaves it. *)
Definition shown_dialog : QProgressDialog :=
  {| wasCanceled := false; dialog_visible := true; result := None |}.

(** The user presses Cancel. *)
Definition cancel (d : QProgressDialog) : QProgressDialog :=
  {| wasCanceled := true; dialog_visible := false; result := result d |}.

End Qt.

(** ** Collaborators of the wizard *)

(** Modelled from the spec: the server class is not part of the sources at
    hand; a compute server is identified by a host and a port, read by the
    wizard as [server.host] and [server.port]. *)
Record Server : Type := {
  host : string;
  port : N
}.

(** Modelled from the spec: the registry behind [Servers.instance()] is
    not part of the sources at hand; it gives the local server,
    [localServer()], and the [dict] of registered remote servers,
    [remoteServers()], kept here in iteration order. *)
Record Servers : Type := {
  localServer : Server;
  remoteServers : list (string * Server)
}.

(** [remoteServers().values()]. *)
Definition values {K V : Type} (d : list (K * V)) : list V := snd <$> d.

(** Modelled from the spec: [Servers.__iter__] is not part of the sources at
    hand; the specification has iteration over the registry yield the
    registered remote servers, the first-iterated one being picked. *)
Definition Servers_iter (s : Servers) : list Server := values (remoteServers s).

(** ["{}:{}".format(server.host, server.port)]. *)
Definition format_host_port (s : Server) : string :=
  host s +:+ ":" +:+ Py.str_of_N (port s).

(** Modelled from the spec: the category tags [Node.routers] and
    [Node.switches]; the node class is not part of the sources at hand. *)
Inductive Category : Type := routers | switches.

(** The [dict] built by [getSettings]; the registry of configured devices
    holds dicts of the same shape. *)
Record Settings : Type := {
  name : string;
  path : string;
  image : string;
  initial_config : string;
  ethernet_adapters : Z;
  serial_adapters : Z;
  default_symbol : string;
  category : Category;
  hover_symbol : string;
  server : string
}.

Inductive Page : Type :=
| uiServerWizardPage
| uiNameImageWizardPage
| otherPage (n : nat).

#[global] Instance Page_eq_dec : EqDecision Page.
Proof. solve_decision. Defined.

(** Identity of a widget handed to [addImageSelector]. *)
Definition ref : Type := positive.

(** ** The wizard object *)

Record Wizard : Type := {
  (* widgets set up by [setupUi] *)
  uiLocalRadioButton : Qt.QAbstractButton;
  uiRemoteRadioButton : Qt.QAbstractButton;
  uiLoadBalanceCheckBox : Qt.QAbstractButton;
  uiRemoteServersGroupBox : bool;  (* isEnabled *)
  uiRemoteServersComboBox : Qt.QComboBox Server;
  uiTypeComboBox : Qt.QComboBox unit;
  uiNameLineEdit : Qt.QLineEdit;
  currentPage : Page;
  (* the widgets reachable through references, and the progress dialogs
     created so far *)
  combo_boxes : ref → Qt.QComboBox Py.value;
  line_edits : ref → Qt.QLineEdit;
  buttons : ref → Qt.QAbstractButton;
  progress_dialogs : nat → Qt.QProgressDialog;
  dialogs_created : nat;
  (* attributes of [DeviceWizard] *)
  _server : option Server;
  _images_combo_boxes : gset ref;
  _images_browser_buttons : gset ref;
  _image_list_progress_dialog : option nat;
  (* attributes of [IOUDeviceWizard] *)
  _iou_devices : list (string * Settings);
  _base_iou_l2_config_template : string;
  _base_iou_l3_config_template : string;
  (* the world around the wizard *)
  get_default_base_config : string → option string;
  servers : Servers;
  message_boxes : list Qt.QMessageBox;
  requests : list (Server * string)
}.

Definition set_uiRemoteServersGroupBox (v : bool) (w : Wizard) : Wizard :=
  {| uiLocalRadioButton := uiLocalRadioButton w; uiRemoteRadioButton := uiRemoteRadioButton w;
     uiLoadBalanceCheckBox := uiLoadBalanceCheckBox w; uiRemoteServersGroupBox := v;
     uiRemoteServersComboBox := uiRemoteServersComboBox w; uiTypeComboBox := uiTypeComboBox w;
     uiNameLineEdit := uiNameLineEdit w; currentPage := currentPage w;
     combo_boxes := combo_boxes w; line_edits := line_edits w; buttons := buttons w;
     progress_dialogs := progress_dialogs w; dialogs_created := dialogs_created w;
     _server := _server w; _images_combo_boxes := _images_combo_boxes w;
     _images_browser_buttons := _images_browser_buttons w;
     _image_list_progress_dialog := _image_list_progress_dialog w; _iou_devices := _iou_devices w;
     _base_iou_l2_config_template := _base_iou_l2_config_template w;
     _base_iou_l3_config_template := _base_iou_l3_config_template w;
     get_default_base_config := get_default_base_config w; servers := servers w;
     message_boxes := message_boxes w; requests := requests w |}.

Definition set_uiRemoteServersComboBox (v : Qt.QComboBox Server) (w : Wizard) : Wizard :=
  {| uiLocalRadioButton := uiLocalRadioButton w; uiRemoteRadioButton := uiRemoteRadioButton w;
     uiLoadBalanceCheckBox := uiLoadBalanceCheckBox w;
     uiRemoteServersGroupBox := uiRemoteServersGroupBox w; uiRemoteServersComboBox := v;
     uiTypeComboBox := uiTypeComboBox w; uiNameLineEdit := uiNameLineEdit w;
     currentPage := currentPage w; combo_boxes := combo_boxes w; line_edits := line_edits w;
     buttons := buttons w; progress_dialogs := progress_dialogs w;
     dialogs_created := dialogs_created w; _server := _server w;
     _images_combo_boxes := _images_combo_boxes w;
     _images_browser_buttons := _images_browser_buttons w;
     _image_list_progress_dialog := _image_list_progress_dialog w; _iou_devices := _iou_devices w;
     _base_iou_l2_config_template := _base_iou_l2_config_template w;
     _base_iou_l3_config_template := _base_iou_l3_config_template w;
     get_default_base_config := get_default_base_config w; servers := servers w;
     message_boxes := message_boxes w; requests := requests w |}.

Definition set_uiTypeComboBox (v : Qt.QComboBox unit) (w : Wizard) : Wizard :=
  {| uiLocalRadioButton := uiLocalRadioButton w; uiRemoteRadioButton := uiRemoteRadioButton w;
     uiLoadBalanceCheckBox := uiLoadBalanceCheckBox w;
     uiRemoteServersGroupBox := uiRemoteServersGroupBox w;
     uiRemoteServersComboBox := uiRemoteServersComboBox w; uiTypeComboBox := v;
     uiNameLineEdit := uiNameLineEdit w; currentPage := currentPage w;
     combo_boxes := combo_boxes w; line_edits := line_edits w; buttons := buttons w;
     progress_dialogs := progress_dialogs w; dialogs_created := dialogs_created w;
     _server := _server w; _images_combo_boxes := _images_combo_boxes w;
     _images_browser_buttons := _images_browser_buttons w;
     _image_list_progress_dialog := _image_list_progress_dialog w; _iou_devices := _iou_devices w;
     _base_iou_l2_config_template := _base_iou_l2_config_template w;
     _base_iou_l3_config_template := _base_iou_l3_config_template w;
     get_default_base_config := get_default_base_config w; servers := servers w;
     message_boxes := message_boxes w; requests := requests w |}.

Definition set_combo_boxes (v : ref → Qt.QComboBox Py.value) (w : Wizard) : Wizard :=
  {| uiLocalRadioButton := uiLocalRadioButton w; uiRemoteRadioButton := uiRemoteRadioButton w;
     uiLoadBalanceCheckBox := uiLoadBalanceCheckBox w;
     uiRemoteServersGroupBox := uiRemoteServersGroupBox w;
     uiRemoteServersComboBox := uiRemoteServersComboBox w; uiTypeComboBox := uiTypeComboBox w;
     uiNameLineEdit := uiNameLineEdit w; currentPage := currentPage w; combo_boxes := v;
     line_edits := line_edits w; buttons := buttons w; progress_dialogs := progress_dialogs w;
     dialogs_created := dialogs_created w; _server := _server w;
     _images_combo_boxes := _images_combo_boxes w;
     _images_browser_buttons := _images_browser_buttons w;
     _image_list_progress_dialog := _image_list_progress_dialog w; _iou_devices := _iou_devices w;
     _base_iou_l2_config_template := _base_iou_l2_config_template w;
     _base_iou_l3_config_template := _base_iou_l3_config_template w;
     get_default_base_config := get_default_base_config w; servers := servers w;
     message_boxes := message_boxes w; requests := requests w |}.

Definition set_line_edits (v : ref → Qt.QLineEdit) (w : Wizard) : Wizard :=
  {| uiLocalRadioButton := uiLocalRadioButton w; uiRemoteRadioButton := uiRemoteRadioButton w;
     uiLoadBalanceCheckBox := uiLoadBalanceCheckBox w;
     uiRemoteServersGroupBox := uiRemoteServersGroupBox w;
     uiRemoteServersComboBox := uiRemoteServersComboBox w; uiTypeComboBox := uiTypeComboBox w;
     uiNameLineEdit := uiNameLineEdit w; currentPage := currentPage w;
     combo_boxes := combo_boxes w; line_edits := v; buttons := buttons w;
     progress_dialogs := progress_dialogs w; dialogs_created := dialogs_created w;
     _server := _server w; _images_combo_boxes := _images_combo_boxes w;
     _images_browser_buttons := _images_browser_buttons w;
     _image_list_progress_dialog := _image_list_progress_dialog w; _iou_devices := _iou_devices w;
     _base_iou_l2_config_template := _base_iou_l2_config_template w;
     _base_iou_l3_config_template := _base_iou_l3_config_template w;
     get_default_base_config := get_default_base_config w; servers := servers w;
     message_boxes := message_boxes w; requests := requests w |}.

Definition set_buttons (v : ref → Qt.QAbstractButton) (w : Wizard) : Wizard :=
  {| uiLocalRadioButton := uiLocalRadioButton w; uiRemoteRadioButton := uiRemoteRadioButton w;
     uiLoadBalanceCheckBox := uiLoadBalanceCheckBox w;
     uiRemoteServersGroupBox := uiRemoteServersGroupBox w;
     uiRemoteServersComboBox := uiRemoteServersComboBox w; uiTypeComboBox := uiTypeComboBox w;
     uiNameLineEdit := uiNameLineEdit w; currentPage := currentPage w;
     combo_boxes := combo_boxes w; line_edits := line_edits w; buttons := v;
     progress_dialogs := progress_dialogs w; dialogs_created := dialogs_created w;
     _server := _server w; _images_combo_boxes := _images_combo_boxes w;
     _images_browser_buttons := _images_browser_buttons w;
     _image_list_progress_dialog := _image_list_progress_dialog w; _iou_devices := _iou_devices w;
     _base_iou_l2_config_template := _base_iou_l2_config_template w;
     _base_iou_l3_config_template := _base_iou_l3_config_template w;
     get_default_base_config := get_default_base_config w; servers := servers w;
     message_boxes := message_boxes w; requests := requests w |}.

Definition set_progress_dialogs (v : nat → Qt.QProgressDialog) (w : Wizard) : Wizard :=
  {| uiLocalRadioButton := uiLocalRadioButton w; uiRemoteRadioButton := uiRemoteRadioButton w;
     uiLoadBalanceCheckBox := uiLoadBalanceCheckBox w;
     uiRemoteServersGroupBox := uiRemoteServersGroupBox w;
     uiRemoteServersComboBox := uiRemoteServersComboBox w; uiTypeComboBox := uiTypeComboBox w;
     uiNameLineEdit := uiNameLineEdit w; currentPage := currentPage w;
     combo_boxes := combo_boxes w; line_edits := line_edits w; buttons := buttons w;
     progress_dialogs := v; dialogs_created := dialogs_created w; _server := _server w;
     _images_combo_boxes := _images_combo_boxes w;
     _images_browser_buttons := _images_browser_buttons w;
     _image_list_progress_dialog := _image_list_progress_dialog w; _iou_devices := _iou_devices w;
     _base_iou_l2_config_template := _base_iou_l2_config_template w;
     _base_iou_l3_config_template := _base_iou_l3_config_template w;
     get_default_base_config := get_default_base_config w; servers := servers w;
     message_boxes := message_boxes w; requests := requests w |}.

Definition set_dialogs_created (v : nat) (w : Wizard) : Wizard :=
  {| uiLocalRadioButton := uiLocalRadioButton w; uiRemoteRadioButton := uiRemoteRadioButton w;
     uiLoadBalanceCheckBox := uiLoadBalanceCheckBox w;
     uiRemoteServersGroupBox := uiRemoteServersGroupBox w;
     uiRemoteServersComboBox := uiRemoteServersComboBox w; uiTypeComboBox := uiTypeComboBox w;
     uiNameLineEdit := uiNameLineEdit w; currentPage := currentPage w;
     combo_boxes := combo_boxes w; line_edits := line_edits w; buttons := buttons w;
     progress_dialogs := progress_dialogs w; dialogs_created := v; _server := _server w;
     _images_combo_boxes := _images_combo_boxes w;
     _images_browser_buttons := _images_browser_buttons w;
     _image_list_progress_dialog := _image_list_progress_dialog w; _iou_devices := _iou_devices w;
     _base_iou_l2_config_template := _base_iou_l2_config_template w;
     _base_iou_l3_config_template := _base_iou_l3_config_template w;
     get_default_base_config := get_default_base_config w; servers := servers w;
     message_boxes := message_boxes w; requests := requests w |}.

Definition set__server (v : option Server) (w : Wizard) : Wizard :=
  {| uiLocalRadioButton := uiLocalRadioButton w; uiRemoteRadioButton := uiRemoteRadioButton w;
     uiLoadBalanceCheckBox := uiLoadBalanceCheckBox w;
     uiRemoteServersGroupBox := uiRemoteServersGroupBox w;
     uiRemoteServersComboBox := uiRemoteServersComboBox w; uiTypeComboBox := uiTypeComboBox w;
     uiNameLineEdit := uiNameLineEdit w; currentPage := currentPage w;
     combo_boxes := combo_boxes w; line_edits := line_edits w; buttons := buttons w;
     progress_dialogs := progress_dialogs w; dialogs_created := dialogs_created w; _server := v;
     _images_combo_boxes := _images_combo_boxes w;
     _images_browser_buttons := _images_browser_buttons w;
     _image_list_progress_dialog := _image_list_progress_dialog w; _iou_devices := _iou_devices w;
     _base_iou_l2_config_template := _base_iou_l2_config_template w;
     _base_iou_l3_config_template := _base_iou_l3_config_template w;
     get_default_base_config := get_default_base_config w; servers := servers w;
     message_boxes := message_boxes w; requests := requests w |}.

Definition set__images_combo_boxes (v : gset ref) (w : Wizard) : Wizard :=
  {| uiLocalRadioButton := uiLocalRadioButton w; uiRemoteRadioButton := uiRemoteRadioButton w;
     uiLoadBalanceCheckBox := uiLoadBalanceCheckBox w;
     uiRemoteServersGroupBox := uiRemoteServersGroupBox w;
     uiRemoteServersComboBox := uiRemoteServersComboBox w; uiTypeComboBox := uiTypeComboBox w;
     uiNameLineEdit := uiNameLineEdit w; currentPage := currentPage w;
     combo_boxes := combo_boxes w; line_edits := line_edits w; buttons := buttons w;
     progress_dialogs := progress_dialogs w; dialogs_created := dialogs_created w;
     _server := _server w; _images_combo_boxes := v;
     _images_browser_buttons := _images_browser_buttons w;
     _image_list_progress_dialog := _image_list_progress_dialog w; _iou_devices := _iou_devices w;
     _base_iou_l2_config_template := _base_iou_l2_config_template w;
     _base_iou_l3_config_template := _base_iou_l3_config_template w;
     get_default_base_config := get_default_base_config w; servers := servers w;
     message_boxes := message_boxes w; requests := requests w |}.

Definition set__images_browser_buttons (v : gset ref) (w : Wizard) : Wizard :=
  {| uiLocalRadioButton := uiLocalRadioButton w; uiRemoteRadioButton := uiRemoteRadioButton w;
     uiLoadBalanceCheckBox := uiLoadBalanceCheckBox w;
     uiRemoteServersGroupBox := uiRemoteServersGroupBox w;
     uiRemoteServersComboBox := uiRemoteServersComboBox w; uiTypeComboBox := uiTypeComboBox w;
     uiNameLineEdit := uiNameLineEdit w; currentPage := currentPage w;
     combo_boxes := combo_boxes w; line_edits := line_edits w; buttons := buttons w;
     progress_dialogs := progress_dialogs w; dialogs_created := dialogs_created w;
     _server := _server w; _images_combo_boxes := _images_combo_boxes w;
     _images_browser_buttons := v; _image_list_progress_dialog := _image_list_progress_dialog w;
     _iou_devices := _iou_devices w;
     _base_iou_l2_config_template := _base_iou_l2_config_template w;
     _base_iou_l3_config_template := _base_iou_l3_config_template w;
     get_default_base_config := get_default_base_config w; servers := servers w;
     message_boxes := message_boxes w; requests := requests w |}.

Definition set__image_list_progress_dialog (v : option nat) (w : Wizard) : Wizard :=
  {| uiLocalRadioButton := uiLocalRadioButton w; uiRemoteRadioButton := uiRemoteRadioButton w;
     uiLoadBalanceCheckBox := uiLoadBalanceCheckBox w;
     uiRemoteServersGroupBox := uiRemoteServersGroupBox w;
     uiRemoteServersComboBox := uiRemoteServersComboBox w; uiTypeComboBox := uiTypeComboBox w;
     uiNameLineEdit := uiNameLineEdit w; currentPage := currentPage w;
     combo_boxes := combo_boxes w; line_edits := line_edits w; buttons := buttons w;
     progress_dialogs := progress_dialogs w; dialogs_created := dialogs_created w;
     _server := _server w; _images_combo_boxes := _images_combo_boxes w;
     _images_browser_buttons := _images_browser_buttons w; _image_list_progress_dialog := v;
     _iou_devices := _iou_devices w;
     _base_iou_l2_config_template := _base_iou_l2_config_template w;
     _base_iou_l3_config_template := _base_iou_l3_config_template w;
     get_default_base_config := get_default_base_config w; servers := servers w;
     message_boxes := message_boxes w; requests := requests w |}.

Definition set_message_boxes (v : list Qt.QMessageBox) (w : Wizard) : Wizard :=
  {| uiLocalRadioButton := uiLocalRadioButton w; uiRemoteRadioButton := uiRemoteRadioButton w;
     uiLoadBalanceCheckBox := uiLoadBalanceCheckBox w;
     uiRemoteServersGroupBox := uiRemoteServersGroupBox w;
     uiRemoteServersComboBox := uiRemoteServersComboBox w; uiTypeComboBox := uiTypeComboBox w;
     uiNameLineEdit := uiNameLineEdit w; currentPage := currentPage w;
     combo_boxes := combo_boxes w; line_edits := line_edits w; buttons := buttons w;
     progress_dialogs := progress_dialogs w; dialogs_created := dialogs_created w;
     _server := _server w; _images_combo_boxes := _images_combo_boxes w;
     _images_browser_buttons := _images_browser_buttons w;
     _image_list_progress_dialog := _image_list_progress_dialog w; _iou_devices := _iou_devices w;
     _base_iou_l2_config_template := _base_iou_l2_config_template w;
     _base_iou_l3_config_template := _base_iou_l3_config_template w;
     get_default_base_config := get_default_base_config w; servers := servers w;
     message_boxes := v; requests := requests w |}.

Definition set_requests (v : list (Server * string)) (w : Wizard) : Wizard :=
  {| uiLocalRadioButton := uiLocalRadioButton w; uiRemoteRadioButton := uiRemoteRadioButton w;
     uiLoadBalanceCheckBox := uiLoadBalanceCheckBox w;
     uiRemoteServersGroupBox := uiRemoteServersGroupBox w;
     uiRemoteServersComboBox := uiRemoteServersComboBox w; uiTypeComboBox := uiTypeComboBox w;
     uiNameLineEdit := uiNameLineEdit w; currentPage := currentPage w;
     combo_boxes := combo_boxes w; line_edits := line_edits w; buttons := buttons w;
     progress_dialogs := progress_dialogs w; dialogs_created := dialogs_created w;
     _server := _server w; _images_combo_boxes := _images_combo_boxes w;
     _images_browser_buttons := _images_browser_buttons w;
     _image_list_progress_dialog := _image_list_progress_dialog w; _iou_devices := _iou_devices w;
     _base_iou_l2_config_template := _base_iou_l2_config_template w;
     _base_iou_l3_config_template := _base_iou_l3_config_template w;
     get_default_base_config := get_default_base_config w; servers := servers w;
     message_boxes := message_boxes w; requests := v |}.

(** ** Computations: state and exceptions *)

Inductive outcome (A : Type) : Type :=
| Returned (a : A) (w : Wizard)
| Raised (e : Py.exn) (w : Wizard).
Arguments Returned {A} a w.
Arguments Raised {A} e w.

Definition M (A : Type) : Type := Wizard → outcome A.

#[global] Instance M_ret : MRet M := λ A a w, Returned a w.

#[global] Instance M_bind : MBind M := λ A B k m w,
  match m w with
  | Returned a w' => k a w'
  | Raised e w' => Raised e w'
  end.

Definition raise {A : Type} (e : Py.exn) : M A := λ w, Raised e w.

Definition self : M Wizard := λ w, Returned w w.

Definition modify (f : Wizard → Wizard) : M unit := λ w, Returned tt (f w).

(** The value of an expression that may raise. *)
Definition eval {A : Type} (r : Py.exn + A) : M A :=
  match r with
  | inl e => raise e
  | inr a => mret a
  end.

(** [for x in l: body(x)]. *)
Fixpoint for_in {A : Type} (l : list A) (body : A → M unit) : M unit :=
  match l with
  | [] => mret tt
  | x :: l' => body x ;; for_in l' body
  end.

(** [for x in l: body(x)] where the body may [return] from the enclosing
    function: [Some r] is such a return. *)
Fixpoint for_in_return {A R : Type} (l : list A) (body : A → M (option R)) : M (option R) :=
  match l with
  | [] => mret None
  | x :: l' =>
      r ← body x;
      match r with
      | Some v => mret (Some v)
      | None => for_in_return l' body
      end
  end.

(** The wizard as a computation leaves it, returned or raised. *)
Definition state_of {A : Type} (o : outcome A) : Wizard :=
  match o with
  | Returned _ w => w
  | Raised _ w => w
  end.

Definition returned {A : Type} (o : outcome A) : option A :=
  match o with
  | Returned a _ => Some a
  | Raised _ _ => None
  end.

Definition raised {A : Type} (o : outcome A) : option Py.exn :=
  match o with
  | Returned _ _ => None
  | Raised e _ => Some e
  end.

(** ** Widget access from the wizard *)

Definition on_combo (c : ref) (f : Qt.QComboBox Py.value → Qt.QComboBox Py.value) : M unit :=
  modify (λ w, set_combo_boxes (<[c := f (combo_boxes w c)]> (combo_boxes w)) w).

Definition on_edit (e : ref) (f : Qt.QLineEdit → Qt.QLineEdit) : M unit :=
  modify (λ w, set_line_edits (<[e := f (line_edits w e)]> (line_edits w)) w).

Definition on_button (b : ref) (f : Qt.QAbstractButton → Qt.QAbstractButton) : M unit :=
  modify (λ w, set_buttons (<[b := f (buttons w b)]> (buttons w)) w).

Definition on_dialog (d : nat) (f : Qt.QProgressDialog → Qt.QProgressDialog) : M unit :=
  modify (λ w, set_progress_dialogs (<[d := f (progress_dialogs w d)]> (progress_dialogs w)) w).

Definition on_remote_servers (f : Qt.QComboBox Server → Qt.QComboBox Server) : M unit :=
  modify (λ w, set_uiRemoteServersComboBox (f (uiRemoteServersComboBox w)) w).

Definition on_type (f : Qt.QComboBox unit → Qt.QComboBox unit) : M unit :=
  modify (λ w, set_uiTypeComboBox (f (uiTypeComboBox w)) w).

(** [QtGui.QMessageBox.critical(self, title, text)] and
    [QtGui.QMessageBox.warning(self, title, text)]: the box is shown and
    recorded. *)
Definition message_box (i : Qt.Icon) (title text : string) : M unit :=
  modify (λ w, set_message_boxes
                 (message_boxes w ++ [{| Qt.icon := i; Qt.title := title; Qt.message := text |}]) w).

(** [not d] for a container. *)
Definition is_empty {A : Type} (l : list A) : bool :=
  match l with
  | [] => true
  | _ :: _ => false
  end.

(** ** [gns3/device_wizard.py] *)

Module DeviceWizard.

Definition _remoteServerToggledSlot (checked : bool) : M unit :=
  if checked then
    modify (set_uiRemoteServersGroupBox true);;
    w ← self;
    for_in (elements (_images_browser_buttons w))
           (λ button, on_button button (Qt.button_setVisible false))
  else
    modify (set_uiRemoteServersGroupBox false);;
    w ← self;
    for_in (elements (_images_browser_buttons w))
           (λ button, on_button button (Qt.button_setVisible true)).

(** [page] is [self.page(page_id)]. *)
Definition initializePage (page : Page) : M unit :=
  if decide (page = uiServerWizardPage) then
    on_remote_servers Qt.clear;;
    w ← self;
    for_in (values (remoteServers (servers w)))
           (λ server, on_remote_servers (Qt.addItem (format_host_port server) server))
  else mret tt.

Definition validateCurrentPage : M bool :=
  w ← self;
  if decide (currentPage w = uiServerWizardPage) then
    if Qt.isChecked (uiRemoteRadioButton w) then
      if is_empty (remoteServers (servers w)) then
        message_box Qt.Critical "Remote server"
          "There is no remote server registered for this type of VM in preferences";;
        mret false
      else
        modify (set__server (Qt.itemData (uiRemoteServersComboBox w)
                                         (Qt.currentIndex (uiRemoteServersComboBox w))));;
        mret true
    else
      modify (set__server (Some (localServer (servers w))));;
      mret true
  else mret true.

Definition _loadBalanceToggledSlot (checked : bool) : M unit :=
  if checked then on_remote_servers (Qt.combo_setEnabled false)
  else on_remote_servers (Qt.combo_setEnabled true).

(** [image_selector] is the file picker: the path chosen, [None] or an
    empty path when the user gives up. *)
Definition _imageBrowserSlot (line_edit : ref) (image_selector : Wizard → option string) : M unit :=
  w ← self;
  match image_selector w with
  | None => mret tt
  | Some path =>
      if String.eqb path "" then mret tt
      else
        on_edit line_edit (Qt.setText "");;
        on_edit line_edit (Qt.setText path)
  end.

Definition _imageListIndexChangedSlot (index : Z) (combo_box line_edit : ref) : M unit :=
  w ← self;
  let item := Qt.itemData (combo_boxes w combo_box) index in
  if Py.truthy item then
    filename ← eval (Py.getitem_opt item "filename");
    t ← eval (Py.as_QString filename);
    on_edit line_edit (Qt.setText t)
  else
    filename ← eval (Py.getitem_opt item "filename");
    t ← eval (Py.as_QString filename);
    on_edit line_edit (Qt.setText t).

Definition _existingImageToggledSlot (checked : bool) (combo_box line_edit browser : ref) : M unit :=
  if checked then
    on_combo combo_box (Qt.combo_setVisible true);;
    on_button browser (Qt.button_setVisible false);;
    on_edit line_edit (Qt.edit_setVisible false);;
    w ← self;
    if 0 <? Qt.count (combo_boxes w combo_box) then
      let item := Qt.itemData (combo_boxes w combo_box)
                              (Qt.currentIndex (combo_boxes w combo_box)) in
      filename ← eval (Py.getitem_opt item "filename");
      t ← eval (Py.as_QString filename);
      on_edit line_edit (Qt.setText t)
    else mret tt
  else
    on_combo combo_box (Qt.combo_setVisible false);;
    on_edit line_edit (Qt.setText "");;
    on_edit line_edit (Qt.edit_setVisible true);;
    on_button browser (Qt.button_setVisible true).

(** The [connect] calls only tell Qt which slot to call later; the
    radio button and the file picker take part in nothing else here. *)
Definition addImageSelector (radio_button combo_box line_edit browser : ref)
    (image_selector : Wizard → option string) : M unit :=
  modify (λ w, set__images_combo_boxes (_images_combo_boxes w ∪ {[combo_box]}) w);;
  w ← self;
  (if Qt.isChecked (uiLocalRadioButton w)
   then on_button browser (Qt.button_setVisible false)
   else on_button browser (Qt.button_setVisible true));;
  modify (λ w, set__images_browser_buttons (_images_browser_buttons w ∪ {[browser]}) w);;
  _existingImageToggledSlot true combo_box line_edit browser.

(** [self._server.get(endpoint, callback)]: the request is handed to the
    HTTP client, which calls back later. *)
Definition server_get (endpoint : string) : M unit :=
  w ← self;
  match _server w with
  | None => raise Py.AttributeError
  | Some s => modify (set_requests (requests w ++ [(s, endpoint)]))
  end.

Definition loadImagesList (endpoint : string) : M unit :=
  w ← self;
  match _image_list_progress_dialog w with
  | Some d => on_dialog d Qt.reject
  | None => mret tt
  end;;
  w ← self;
  let d := dialogs_created w in
  modify (set_dialogs_created (S d));;
  on_dialog d (λ _, Qt.shown_dialog);;
  modify (set__image_list_progress_dialog (Some d));;
  server_get endpoint.

Definition _getImagesFromServerCallback (result : Py.reply) (error : bool) : M unit :=
  w ← self;
  let progress_dialog := _image_list_progress_dialog w in
  modify (set__image_list_progress_dialog None);;
  match progress_dialog with
  | None => raise Py.AttributeError
  | Some d =>
      if Qt.wasCanceled (progress_dialogs w d) then mret tt
      else
        on_dialog d Qt.accept;;
        if error then
          msg ← eval (Py.getitem_reply result "message");
          message_box Qt.Critical "Images"
            ("Error while getting the VMs: " +:+ Py.format_atom msg)
        else
          for_in (elements (_images_combo_boxes w))
                 (λ combo_box,
                    on_combo combo_box Qt.clear;;
                    vms ← eval (Py.iterate result);
                    for_in vms
                           (λ vm,
                              filename ← eval (Py.getitem vm "filename");
                              t ← eval (Py.as_QString filename);
                              on_combo combo_box (Qt.addItem t vm)))
  end.

End DeviceWizard.

(** ** [gns3/modules/iou/dialogs/iou_device_wizard.py] *)

Module IOUDeviceWizard.

(** The widgets [__init__] hands to [addImageSelector]. *)
Definition uiExistingImageRadioButton : ref := 1%positive.
Definition uiIOUImageListComboBox : ref := 2%positive.
Definition uiIOUImageLineEdit : ref := 3%positive.
Definition uiIOUImageToolButton : ref := 4%positive.

(** [self.uiTypeComboBox.addItems(["L2 image", "L3 image"])]. *)
Definition available_types : list (string * unit) := [("L2 image", tt); ("L3 image", tt)].

Definition _imageLineEditTextChangedSlot (text : string) : M unit :=
  if Py.contains "l2" text then on_type (Qt.setCurrentIndex 0)
  else if Py.contains "l3" text then on_type (Qt.setCurrentIndex 1)
  else mret tt.

(** [page] is [self.page(page_id)]. *)
Definition initializePage (page : Page) : M unit :=
  DeviceWizard.initializePage page;;
  (if decide (page = uiServerWizardPage) then
     on_remote_servers Qt.clear;;
     w ← self;
     for_in (values (remoteServers (servers w)))
            (λ server, on_remote_servers (Qt.addItem (format_host_port server) server))
   else mret tt);;
  if decide (page = uiNameImageWizardPage) then
    w ← self;
    (if negb (Qt.isChecked (uiLocalRadioButton w)) then
       message_box Qt.Warning "IOU image"
         "You have chosen to use a remote server, please provide the path to an IOU image located on this server!"
     else mret tt);;
    DeviceWizard.loadImagesList "/iou/vms"
  else mret tt.

Definition validateCurrentPage : M bool :=
  ok ← DeviceWizard.validateCurrentPage;
  if negb ok then mret false
  else
    w ← self;
    returning ←
      (if decide (currentPage w = uiNameImageWizardPage) then
         let name' := Qt.text (uiNameLineEdit w) in
         for_in_return (values (_iou_devices w))
           (λ iou_device,
              if String.eqb (name iou_device) name' then
                message_box Qt.Critical "Name"
                  (name' +:+ " is already used, please choose another name");;
                mret (Some false)
              else mret None)
       else mret None);
    match returning with
    | Some b => mret b
    | None =>
        w ← self;
        if decide (currentPage w = uiServerWizardPage) then
          if Qt.isChecked (uiRemoteRadioButton w) then
            if is_empty (remoteServers (servers w)) then
              message_box Qt.Critical "Remote server"
                "There is no remote server registered in IOS on UNIX preferences";;
              mret false
            else
              modify (set__server (Qt.itemData (uiRemoteServersComboBox w)
                                               (Qt.currentIndex (uiRemoteServersComboBox w))));;
              mret true
          else
            modify (set__server (Some (localServer (servers w))));;
            mret true
        else mret true
    end.

(** [if default_base_config: initial_config = default_base_config]. *)
Definition initial_config_of (default_base_config : option string) : string :=
  match default_base_config with
  | Some s => s
  | None => ""
  end.

Definition getSettings : M Settings :=
  w ← self;
  let path' := Qt.text (line_edits w uiIOUImageLineEdit) in
  let '(initial_config', default_symbol', hover_symbol', category', ethernet', serial') :=
    if String.eqb (Qt.currentText (uiTypeComboBox w)) "L2 image" then
      (initial_config_of (get_default_base_config w (_base_iou_l2_config_template w)),
       ":/symbols/multilayer_switch.normal.svg",
       ":/symbols/multilayer_switch.selected.svg",
       switches, 4, 0)
    else
      (initial_config_of (get_default_base_config w (_base_iou_l3_config_template w)),
       ":/symbols/router.normal.svg",
       ":/symbols/router.selected.svg",
       routers, 2, 2) in
  server' ←
    (if Qt.isChecked (uiLocalRadioButton w) then mret "local"
     else if Qt.isChecked (uiRemoteRadioButton w) then
       if Qt.isChecked (uiLoadBalanceCheckBox w) then
         match Servers_iter (servers w) with
         | [] => raise Py.StopIteration
         | s :: _ => mret (format_host_port s)
         end
       else mret (Qt.currentText (uiRemoteServersComboBox w))
     else mret "cloud");
  mret {| name := Qt.text (uiNameLineEdit w);
          path := path';
          image := Py.basename path';
          initial_config := initial_config';
          ethernet_adapters := ethernet';
          serial_adapters := serial';
          default_symbol := default_symbol';
          category := category';
          hover_symbol := hover_symbol';
          server := server' |}.

End IOUDeviceWizard.

(** ** A wizard to run the code on *)

Module Sample.

Definition remote1 : Server := {| host := "10.0.0.5"; port := 8000 |}.
Definition remote2 : Server := {| host := "gns3.example.org"; port := 8001 |}.

Definition registry : Servers :=
  {| localServer := {| host := "127.0.0.1"; port := 8000 |};
     remoteServers := [("10.0.0.5:8000", remote1); ("gns3.example.org:8001", remote2)] |}.

Definition no_remote : Servers :=
  {| localServer := {| host := "127.0.0.1"; port := 8000 |}; remoteServers := [] |}.

Definition device (n : string) : Settings :=
  {| name := n; path := "/opt/iou/i86bi-linux-l3.bin"; image := "i86bi-linux-l3.bin";
     initial_config := ""; ethernet_adapters := 2; serial_adapters := 2;
     default_symbol := ":/symbols/router.normal.svg"; category := routers;
     hover_symbol := ":/symbols/router.selected.svg"; server := "local" |}.

Definition devices : list (string * Settings) :=
  [("local:R1", device "R1"); ("local:R2", device "R2")].

Definition button (checked : bool) : Qt.QAbstractButton :=
  {| Qt.isChecked := checked; Qt.button_visible := true |}.

Definition empty_combo {D : Type} : Qt.QComboBox D :=
  {| Qt.items := []; Qt.currentIndex := -1; Qt.combo_visible := true; Qt.combo_enabled := true |}.

(** The object as [DeviceWizard.__init__] and the first lines of
    [IOUDeviceWizard.__init__] leave it, before [addImageSelector]: the
    local server is stored, no selector is registered, no fetch is
    pending, and the type combo box offers the two image types. *)
Definition blank (local remote balance : bool) (name' : string) (page : Page)
    (srv : Servers) : Wizard :=
  {| uiLocalRadioButton := button local;
     uiRemoteRadioButton := button remote;
     uiLoadBalanceCheckBox := button balance;
     uiRemoteServersGroupBox := remote;
     uiRemoteServersComboBox := empty_combo;
     uiTypeComboBox :=
       {| Qt.items := IOUDeviceWizard.available_types; Qt.currentIndex := 0;
          Qt.combo_visible := true; Qt.combo_enabled := true |};
     uiNameLineEdit := {| Qt.text := name'; Qt.edit_visible := true |};
     currentPage := page;
     combo_boxes := λ _, empty_combo;
     line_edits := λ _, {| Qt.text := ""; Qt.edit_visible := true |};
     buttons := λ _, button false;
     progress_dialogs := λ _, Qt.shown_dialog;
     dialogs_created := 0;
     _server := Some (localServer srv);
     _images_combo_boxes := ∅;
     _images_browser_buttons := ∅;
     _image_list_progress_dialog := None;
     _iou_devices := devices;
     _base_iou_l2_config_template := "configs/iou_l2_base_initial-config.txt";
     _base_iou_l3_config_template := "configs/iou_l3_base_initial-config.txt";
     get_default_base_config := λ _, None;
     servers := srv;
     message_boxes := [];
     requests := [] |}.

(** The object once [IOUDeviceWizard.__init__] has registered its image
    selector. *)
Definition wizard (local remote balance : bool) (name' : string) (page : Page)
    (srv : Servers) : Wizard :=
  state_of (DeviceWizard.addImageSelector
              IOUDeviceWizard.uiExistingImageRadioButton
              IOUDeviceWizard.uiIOUImageListComboBox
              IOUDeviceWizard.uiIOUImageLineEdit
              IOUDeviceWizard.uiIOUImageToolButton
              (λ _, None)
              (blank local remote balance name' page srv)).

Definition record (filename : string) : Py.value :=
  Py.Dict {[ "filename" := Py.AStr filename ]}.

(** A whole session on the name and image page: the page is entered, the
    image list arrives, and Qt delivers the index change of the combo box
    and the text change of the line edit that follow from it. *)
Definition session (reply : list Py.value) (index : Z) (w : Wizard) : Wizard :=
  let entered := state_of (IOUDeviceWizard.initializePage uiNameImageWizardPage w) in
  let listed :=
    state_of (DeviceWizard._getImagesFromServerCallback (Py.List reply) false entered) in
  let picked :=
    state_of (DeviceWizard._imageListIndexChangedSlot
                index IOUDeviceWizard.uiIOUImageListComboBox
                IOUDeviceWizard.uiIOUImageLineEdit listed) in
  state_of (IOUDeviceWizard._imageLineEditTextChangedSlot
              (Qt.text (line_edits picked IOUDeviceWizard.uiIOUImageLineEdit)) picked).

Definition first_reply : Py.reply := Py.List [record "i86bi-linux-l2.bin"].
Definition second_reply : Py.reply := Py.List [record "i86bi-linux-l3.bin"; record "vios-l2.bin"].

End Sample.

(** * Properties *)

(** Unfolds the monad down to plain functions on the wizard. *)
Ltac run :=
  unfold mbind, M_bind, mret, M_ret, self, modify, raise, eval,
         on_combo, on_edit, on_button, on_dialog, on_remote_servers, on_type,
         message_box in *.

(** ** Substring search *)

(** [needle] occurs in [hay]: some text before it, some text after. *)
Definition occurs_in (needle hay : string) : Prop :=
  ∃ before after : string, hay = before +:+ needle +:+ after.

Lemma append_cons (c : ascii) (s t : string) : String c s +:+ t = String c (s +:+ t).
Proof. reflexivity. Qed.

Lemma append_nil (t : string) : EmptyString +:+ t = t.
Proof. reflexivity. Qed.

Lemma prefix_true_iff (p s : string) :
  String.prefix p s = true ↔ ∃ rest : string, s = p +:+ rest.
Proof.
  revert s. induction p as [|c p IH]; intros s; destruct s as [|c' s]; simpl.
  - split; [intros _; by exists EmptyString | done].
  - split; [intros _; by exists (String c' s) | done].
  - split; [done | by intros [rest ?]].
  - destruct (Ascii.ascii_dec c c') as [->|Hne].
    + rewrite IH. split; intros [rest Hrest]; exists rest;
        rewrite append_cons in *; congruence.
    + split; [done | intros [rest Hrest]; rewrite append_cons in Hrest; congruence].
Qed.

Lemma contains_nil (needle : string) :
  Py.contains needle EmptyString = String.prefix needle EmptyString || false.
Proof. reflexivity. Qed.

Lemma contains_cons (needle : string) (c : ascii) (hay : string) :
  Py.contains needle (String c hay)
  = String.prefix needle (String c hay) || Py.contains needle hay.
Proof. reflexivity. Qed.

Lemma contains_true_iff (needle hay : string) :
  Py.contains needle hay = true ↔ occurs_in needle hay.
Proof.
  split.
  - induction hay as [|c hay IH].
    + rewrite contains_nil, orb_true_iff. intros [Hp | ?]; [|done].
      apply prefix_true_iff in Hp as [rest Hrest].
      by exists EmptyString, rest.
    + rewrite contains_cons, orb_true_iff. intros [Hp | Hc].
      * apply prefix_true_iff in Hp as [rest Hrest].
        by exists EmptyString, rest.
      * destruct (IH Hc) as (before & after & ->).
        by exists (String c before), after.
  - intros (before & after & ->).
    induction before as [|c before IH].
    + rewrite append_nil.
      assert (String.prefix needle (needle +:+ after) = true) as Hp
        by (apply prefix_true_iff; by exists after).
      destruct (needle +:+ after).
      * by rewrite contains_nil, Hp.
      * by rewrite contains_cons, Hp.
    + rewrite append_cons, contains_cons, IH. apply orb_true_r.
Qed.

Lemma contains_false_iff (needle hay : string) :
  Py.contains needle hay = false ↔ ¬ occurs_in needle hay.
Proof.
  rewrite <- contains_true_iff. by destruct (Py.contains needle hay).
Qed.

(** ** The image-path heuristic *)

(** C3, as stated, fails: a path that contains both "l2" and "l3" contains
    "l3", yet the handler selects index 0 and not the L3 entry. *)
Lemma type_heuristic_l3_overridden :
  let w := Sample.wizard true false false "R1" uiNameImageWizardPage Sample.registry in
  let text := "/opt/iou/l3/i86bi-linux-l2-adv.bin" in
  ¬ (occurs_in "l3" text →
     Qt.currentIndex
       (uiTypeComboBox (state_of (IOUDeviceWizard._imageLineEditTextChangedSlot text w))) = 1).
Proof.
  intros w text Hclaim.
  assert (occurs_in "l3" text) as Hl3 by (by apply contains_true_iff).
  specialize (Hclaim Hl3). vm_compute in Hclaim. discriminate.
Qed.

Lemma select_L2 (c : Qt.QComboBox unit) :
  Qt.items c = IOUDeviceWizard.available_types →
  Qt.currentIndex (Qt.setCurrentIndex 0 c) = 0
  ∧ Qt.currentText (Qt.setCurrentIndex 0 c) = "L2 image".
Proof. destruct c as [its idx vis en]; simpl; intros ->; done. Qed.

Lemma select_L3 (c : Qt.QComboBox unit) :
  Qt.items c = IOUDeviceWizard.available_types →
  Qt.currentIndex (Qt.setCurrentIndex 1 c) = 1
  ∧ Qt.currentText (Qt.setCurrentIndex 1 c) = "L3 image".
Proof. destruct c as [its idx vis en]; simpl; intros ->; done. Qed.

(** C3, amended: the handler always returns; with the two image types in the
    type combo box, a text in which "l2" occurs selects index 0 (L2 image);
    a text in which "l3" occurs and "l2" does not selects index 1 (L3 image);
    a text with neither leaves the wizard as it was.  Occurrence is exact,
    character by character, hence case-sensitive. *)
Theorem type_heuristic (w : Wizard) (text : string) :
  Qt.items (uiTypeComboBox w) = IOUDeviceWizard.available_types →
  let o := IOUDeviceWizard._imageLineEditTextChangedSlot text w in
  returned o = Some tt
  ∧ (occurs_in "l2" text →
     Qt.currentIndex (uiTypeComboBox (state_of o)) = 0
     ∧ Qt.currentText (uiTypeComboBox (state_of o)) = "L2 image")
  ∧ (¬ occurs_in "l2" text → occurs_in "l3" text →
     Qt.currentIndex (uiTypeComboBox (state_of o)) = 1
     ∧ Qt.currentText (uiTypeComboBox (state_of o)) = "L3 image")
  ∧ (¬ occurs_in "l2" text → ¬ occurs_in "l3" text → state_of o = w).
Proof.
  intros Hitems o. subst o. unfold IOUDeviceWizard._imageLineEditTextChangedSlot.
  rewrite <- !contains_true_iff.
  destruct (Py.contains "l2" text) eqn:H2; [|destruct (Py.contains "l3" text) eqn:H3];
    run; simpl; split_and!; try done; intros;
    first [by apply select_L2 | by apply select_L3].
Qed.

Lemma type_heuristic_witness :
  let w := Sample.wizard true false false "R1" uiNameImageWizardPage Sample.registry in
  let o := IOUDeviceWizard._imageLineEditTextChangedSlot "/opt/iou/L2/i86bi-linux-l3.bin" w in
  Qt.currentIndex (uiTypeComboBox (state_of o)) = 1
  ∧ Qt.currentText (uiTypeComboBox (state_of o)) = "L3 image".
Proof.
  intros w o.
  apply (type_heuristic w "/opt/iou/L2/i86bi-linux-l3.bin").
  - reflexivity.
  - apply contains_false_iff. reflexivity.
  - apply contains_true_iff. reflexivity.
Defined.

(** ** Assembling the settings *)

(** The only way [getSettings] can fail: remote with load balancing asks
    the registry for its first server; [next] on an exhausted iterator
    raises [StopIteration]. *)
Definition no_server_to_pick (w : Wizard) : Prop :=
  Qt.isChecked (uiLocalRadioButton w) = false
  ∧ Qt.isChecked (uiRemoteRadioButton w) = true
  ∧ Qt.isChecked (uiLoadBalanceCheckBox w) = true
  ∧ Servers_iter (servers w) = [].

Lemma getSettings_raises (w : Wizard) :
  no_server_to_pick w →
  IOUDeviceWizard.getSettings w = Raised Py.StopIteration w.
Proof.
  intros (Hl & Hr & Hb & Hs). unfold IOUDeviceWizard.getSettings. run.
  rewrite Hl, Hr, Hb, Hs.
  by destruct (String.eqb _ _).
Qed.

Lemma getSettings_returns (w : Wizard) :
  ¬ no_server_to_pick w →
  ∃ s : Settings, IOUDeviceWizard.getSettings w = Returned s w.
Proof.
  intros Hpick. unfold IOUDeviceWizard.getSettings. run.
  destruct (String.eqb _ _);
    destruct (Qt.isChecked (uiLocalRadioButton w)) eqn:Hl; eauto;
    destruct (Qt.isChecked (uiRemoteRadioButton w)) eqn:Hr; eauto;
    destruct (Qt.isChecked (uiLoadBalanceCheckBox w)) eqn:Hb; eauto;
    destruct (Servers_iter (servers w)) eqn:Hs; eauto;
    by destruct Hpick.
Qed.

(** C2: the [server] entry of the settings.  Local checked: "local".
    Remote checked (the radio buttons exclude one another, so local is not)
    with load balancing: the first server the registry iterates, as
    "host:port".  Remote checked without load balancing: the text shown by
    the remote-server combo box.  Neither checked, which is the cloud
    choice: "cloud". *)
Theorem getSettings_server (w : Wizard) :
  let o := IOUDeviceWizard.getSettings w in
  (Qt.isChecked (uiLocalRadioButton w) = true →
   server <$> returned o = Some "local")
  ∧ (Qt.isChecked (uiLocalRadioButton w) = false →
     Qt.isChecked (uiRemoteRadioButton w) = true →
     Qt.isChecked (uiLoadBalanceCheckBox w) = true →
     ∀ (first : Server) (others : list Server),
       Servers_iter (servers w) = first :: others →
       server <$> returned o = Some (host first +:+ ":" +:+ Py.str_of_N (port first)))
  ∧ (Qt.isChecked (uiLocalRadioButton w) = false →
     Qt.isChecked (uiRemoteRadioButton w) = true →
     Qt.isChecked (uiLoadBalanceCheckBox w) = false →
     server <$> returned o = Some (Qt.currentText (uiRemoteServersComboBox w)))
  ∧ (Qt.isChecked (uiLocalRadioButton w) = false →
     Qt.isChecked (uiRemoteRadioButton w) = false →
     server <$> returned o = Some "cloud").
Proof.
  intros o. subst o. unfold IOUDeviceWizard.getSettings. run.
  split_and!.
  - intros ->. by destruct (String.eqb _ _).
  - intros -> -> -> first others ->. by destruct (String.eqb _ _).
  - intros -> -> ->. by destruct (String.eqb _ _).
  - intros -> ->. by destruct (String.eqb _ _).
Qed.

Lemma getSettings_server_witness :
  server <$> returned (IOUDeviceWizard.getSettings
                         (Sample.wizard false true true "R3" uiNameImageWizardPage
                                        Sample.registry))
  = Some "10.0.0.5:8000".
Proof.
  refine (proj1 (proj2 (getSettings_server
                          (Sample.wizard false true true "R3" uiNameImageWizardPage
                                         Sample.registry)))
                _ _ _ Sample.remote1 [Sample.remote2] _);
    reflexivity.
Defined.

(** The tuple the specification attaches to a device type: for the L2 type
    four Ethernet adapters, no serial adapter, category switches and the
    multilayer-switch symbols; for any other type two adapters of each
    kind, category routers and the router symbols. *)
Definition type_tuple (image_type : string) : Z * Z * Category * string * string :=
  if decide (image_type = "L2 image")
  then (4, 0, switches,
        ":/symbols/multilayer_switch.normal.svg", ":/symbols/multilayer_switch.selected.svg")
  else (2, 2, routers, ":/symbols/router.normal.svg", ":/symbols/router.selected.svg").

Definition tuple_of (s : Settings) : Z * Z * Category * string * string :=
  (ethernet_adapters s, serial_adapters s, category s, default_symbol s, hover_symbol s).

(** C5: whenever a server can be resolved, [getSettings] returns, leaves the
    wizard untouched, and the adapter counts, category and symbols of the
    settings are the tuple of the selected device type: a function of the
    type alone, whatever the name, the path and the server choice are. *)
Theorem getSettings_type_tuple (w : Wizard) :
  ¬ no_server_to_pick w →
  ∃ s : Settings,
    IOUDeviceWizard.getSettings w = Returned s w
    ∧ tuple_of s = type_tuple (Qt.currentText (uiTypeComboBox w)).
Proof.
  intros Hpick.
  destruct (getSettings_returns w Hpick) as [s Hs].
  exists s. split; [done|].
  revert Hs. unfold IOUDeviceWizard.getSettings, type_tuple. run.
  case_decide as Htype.
  - rewrite Htype. simpl.
    repeat (match goal with |- context [if ?b then _ else _] => destruct b end;
            try discriminate);
      try (intros [= <-]; reflexivity);
      destruct (Servers_iter (servers w)); try discriminate; intros [= <-]; reflexivity.
  - apply String.eqb_neq in Htype. rewrite Htype.
    repeat (match goal with |- context [if ?b then _ else _] => destruct b end;
            try discriminate);
      try (intros [= <-]; reflexivity);
      destruct (Servers_iter (servers w)); try discriminate; intros [= <-]; reflexivity.
Qed.

Lemma getSettings_type_tuple_witness :
  let w := Sample.session [Sample.record "vios-l2.bin"] 0
             (Sample.wizard true false false "R1" uiNameImageWizardPage Sample.registry) in
  ∃ s : Settings,
    IOUDeviceWizard.getSettings w = Returned s w
    ∧ tuple_of s
      = (4, 0, switches,
         ":/symbols/multilayer_switch.normal.svg", ":/symbols/multilayer_switch.selected.svg").
Proof.
  intros w.
  apply (getSettings_type_tuple w).
  intros (Hlocal & _). vm_compute in Hlocal. discriminate.
Defined.

(** The session of the specification's example: local server, the image
    "vios-l2.bin" picked from the list, the name "R1". *)
Example getSettings_on_session :
  returned (IOUDeviceWizard.getSettings
              (Sample.session [Sample.record "vios-l2.bin"] 0
                 (Sample.wizard true false false "R1" uiNameImageWizardPage
                                Sample.registry)))
  = Some {| name := "R1";
            path := "vios-l2.bin";
            image := "vios-l2.bin";
            initial_config := "";
            ethernet_adapters := 4;
            serial_adapters := 0;
            default_symbol := ":/symbols/multilayer_switch.normal.svg";
            category := switches;
            hover_symbol := ":/symbols/multilayer_switch.selected.svg";
            server := "local" |}.
Proof. reflexivity. Qed.

(** ** Validating a page *)

(** The wizard with one more message box on screen. *)
Definition with_message_box (i : Qt.Icon) (title text : string) (w : Wizard) : Wizard :=
  set_message_boxes
    (message_boxes w ++ [{| Qt.icon := i; Qt.title := title; Qt.message := text |}]) w.

Lemma is_empty_true {A : Type} (l : list A) : is_empty l = true ↔ l = [].
Proof. by destruct l. Qed.

Lemma is_empty_false {A : Type} (l : list A) : is_empty l = false ↔ l ≠ [].
Proof. by destruct l. Qed.

(** The three ways through the server page, for the base class. *)
Lemma validate_server_page_base (w : Wizard) :
  currentPage w = uiServerWizardPage →
  (Qt.isChecked (uiRemoteRadioButton w) = true → remoteServers (servers w) = [] →
   DeviceWizard.validateCurrentPage w
   = Returned false
       (with_message_box Qt.Critical "Remote server"
          "There is no remote server registered for this type of VM in preferences" w))
  ∧ (Qt.isChecked (uiRemoteRadioButton w) = true → remoteServers (servers w) ≠ [] →
     DeviceWizard.validateCurrentPage w
     = Returned true
         (set__server (Qt.itemData (uiRemoteServersComboBox w)
                                   (Qt.currentIndex (uiRemoteServersComboBox w))) w))
  ∧ (Qt.isChecked (uiRemoteRadioButton w) = false →
     DeviceWizard.validateCurrentPage w
     = Returned true (set__server (Some (localServer (servers w))) w)).
Proof.
  intros Hpage. unfold DeviceWizard.validateCurrentPage. run.
  rewrite Hpage. simpl. split_and!.
  - intros -> ->. reflexivity.
  - intros -> Hne. apply is_empty_false in Hne. by rewrite Hne.
  - intros ->. reflexivity.
Qed.

Lemma validate_other_page_base (w : Wizard) :
  currentPage w ≠ uiServerWizardPage →
  DeviceWizard.validateCurrentPage w = Returned true w.
Proof.
  intros Hpage. unfold DeviceWizard.validateCurrentPage. run.
  by case_decide.
Qed.

(** The combo-box entry of a remote server: "host:port" for display, the
    server as data. *)
Definition server_entry (s : Server) : string * Server := (format_host_port s, s).

Lemma add_servers_run (srvs : list Server) :
  ∀ w : Wizard,
  ∃ c : Qt.QComboBox Server,
    for_in srvs (λ server, on_remote_servers (Qt.addItem (format_host_port server) server)) w
    = Returned tt (set_uiRemoteServersComboBox c w)
    ∧ Qt.items c = (Qt.items (uiRemoteServersComboBox w) ++ (server_entry <$> srvs))%list
    ∧ Qt.currentIndex c
      = (if is_empty (Qt.items (uiRemoteServersComboBox w)) && negb (is_empty srvs)
         then 0 else Qt.currentIndex (uiRemoteServersComboBox w))
    ∧ Qt.combo_visible c = Qt.combo_visible (uiRemoteServersComboBox w)
    ∧ Qt.combo_enabled c = Qt.combo_enabled (uiRemoteServersComboBox w).
Proof.
  induction srvs as [|s srvs IH]; intros w.
  - exists (uiRemoteServersComboBox w). split_and!; try done.
    + simpl. unfold mret, M_ret. by destruct w.
    + simpl. by rewrite app_nil_r.
    + by rewrite andb_false_r.
  - pose (w1 := set_uiRemoteServersComboBox
                  (Qt.addItem (format_host_port s) s (uiRemoteServersComboBox w)) w).
    destruct (IH w1) as (c & Hrun & Hitems & Hindex & Hvisible & Henabled).
    exists c. split_and!; try done.
    + rewrite Hitems. unfold w1. simpl. by rewrite <- app_assoc.
    + rewrite Hindex. unfold w1. simpl. unfold Qt.count.
      by destruct (Qt.items (uiRemoteServersComboBox w)).
Qed.

(** Entering the server page lists the registered remote servers, one
    entry each, and makes the first one current. *)
Lemma initialize_server_page (w : Wizard) :
  ∃ c : Qt.QComboBox Server,
    DeviceWizard.initializePage uiServerWizardPage w
    = Returned tt (set_uiRemoteServersComboBox c w)
    ∧ IOUDeviceWizard.initializePage uiServerWizardPage w
      = Returned tt (set_uiRemoteServersComboBox c w)
    ∧ Qt.items c = server_entry <$> values (remoteServers (servers w))
    ∧ Qt.itemData c (Qt.currentIndex c) = head (values (remoteServers (servers w))).
Proof.
  pose (w1 := set_uiRemoteServersComboBox (Qt.clear (uiRemoteServersComboBox w)) w).
  destruct (add_servers_run (values (remoteServers (servers w))) w1)
    as (c & Hrun & Hitems & Hindex & Hvisible & Henabled).
  simpl in Hitems, Hindex, Hvisible, Henabled.
  assert (DeviceWizard.initializePage uiServerWizardPage w
          = Returned tt (set_uiRemoteServersComboBox c w)) as Hbase by exact Hrun.
  exists c. split_and!; try done.
  - unfold IOUDeviceWizard.initializePage.
    unfold mbind at 1. unfold M_bind at 1. rewrite Hbase.
    unfold mbind at 1. unfold M_bind at 1. simpl.
    unfold mbind at 1. unfold M_bind at 1. unfold on_remote_servers at 1, modify at 1.
    unfold mbind at 1. unfold M_bind at 1. unfold self at 1.
    cbn [servers set_uiRemoteServersComboBox uiRemoteServersComboBox].
    destruct (add_servers_run (values (remoteServers (servers w)))
                (set_uiRemoteServersComboBox (Qt.clear c) (set_uiRemoteServersComboBox c w)))
      as (c' & Hrun' & Hitems' & Hindex' & Hvisible' & Henabled').
    simpl in Hrun', Hitems', Hindex', Hvisible', Henabled'.
    assert (c' = c) as -> by (destruct c, c'; simpl in *; congruence).
    rewrite Hrun'. reflexivity.
  - unfold Qt.itemData, Qt.item_at, Qt.count. rewrite Hindex, Hitems.
    by destruct (values (remoteServers (servers w))).
Qed.

(** C4: on the server page, for the base wizard and for the IOU wizard
    alike.  Remote checked and no remote server registered: the call
    returns [False], one critical message box has been shown, and the
    stored server, like everything else, is what it was.  Remote checked
    and a server registered: the call returns [True] and the stored server
    is the data of the remote-server combo box's current item.  Remote not
    checked: the call returns [True] and the stored server is the local
    one. *)
Theorem validate_server_page (w : Wizard) :
  currentPage w = uiServerWizardPage →
  (Qt.isChecked (uiRemoteRadioButton w) = true → remoteServers (servers w) = [] →
   let blocked :=
     with_message_box Qt.Critical "Remote server"
       "There is no remote server registered for this type of VM in preferences" w in
   DeviceWizard.validateCurrentPage w = Returned false blocked
   ∧ IOUDeviceWizard.validateCurrentPage w = Returned false blocked
   ∧ _server blocked = _server w)
  ∧ (Qt.isChecked (uiRemoteRadioButton w) = true → remoteServers (servers w) ≠ [] →
     let chosen :=
       set__server (Qt.itemData (uiRemoteServersComboBox w)
                                (Qt.currentIndex (uiRemoteServersComboBox w))) w in
     DeviceWizard.validateCurrentPage w = Returned true chosen
     ∧ IOUDeviceWizard.validateCurrentPage w = Returned true chosen)
  ∧ (Qt.isChecked (uiRemoteRadioButton w) = false →
     let local := set__server (Some (localServer (servers w))) w in
     DeviceWizard.validateCurrentPage w = Returned true local
     ∧ IOUDeviceWizard.validateCurrentPage w = Returned true local).
Proof.
  intros Hpage.
  destruct (validate_server_page_base w Hpage) as (Hblocked & Hchosen & Hlocal).
  split_and!.
  - intros Hr Hs blocked. specialize (Hblocked Hr Hs).
    split_and!; [done | | done].
    unfold IOUDeviceWizard.validateCurrentPage. run. by rewrite Hblocked.
  - intros Hr Hs chosen. specialize (Hchosen Hr Hs).
    split; [done|].
    unfold IOUDeviceWizard.validateCurrentPage. run. rewrite Hchosen. simpl.
    apply is_empty_false in Hs.
    repeat (rewrite ?Hpage, ?Hr, ?Hs; simpl). reflexivity.
  - intros Hr local. specialize (Hlocal Hr).
    split; [done|].
    unfold IOUDeviceWizard.validateCurrentPage. run. rewrite Hlocal. simpl.
    repeat (rewrite ?Hpage, ?Hr; simpl). reflexivity.
Qed.

Lemma validate_server_page_witness :
  let w := Sample.wizard false true false "R1" uiServerWizardPage Sample.no_remote in
  let blocked :=
    with_message_box Qt.Critical "Remote server"
      "There is no remote server registered for this type of VM in preferences" w in
  DeviceWizard.validateCurrentPage w = Returned false blocked
  ∧ IOUDeviceWizard.validateCurrentPage w = Returned false blocked
  ∧ _server blocked = _server w.
Proof.
  intros w.
  refine (proj1 (validate_server_page w _) _ _); reflexivity.
Defined.

(** The loop over the configured devices: it stops at the first device
    that carries the entered name. *)
Lemma name_loop (devices : list Settings) (entered : string) (w : Wizard) :
  for_in_return devices
    (λ iou_device,
       if String.eqb (name iou_device) entered then
         message_box Qt.Critical "Name"
           (entered +:+ " is already used, please choose another name");;
         mret (Some false)
       else mret None) w
  = if existsb (λ iou_device, String.eqb (name iou_device) entered) devices
    then Returned (Some false)
           (with_message_box Qt.Critical "Name"
              (entered +:+ " is already used, please choose another name") w)
    else Returned None w.
Proof.
  induction devices as [|dev devices IH]; simpl; [done|].
  run. destruct (String.eqb (name dev) entered); simpl; [done|].
  run. by rewrite IH; destruct (existsb _ devices).
Qed.

Lemma name_taken_iff (devices : list Settings) (entered : string) :
  existsb (λ iou_device, String.eqb (name iou_device) entered) devices = true
  ↔ ∃ dev : Settings, dev ∈ devices ∧ name dev = entered.
Proof.
  rewrite existsb_exists. split; intros (dev & Hin & Heq); exists dev.
  - split; [by apply list_elem_of_In | by apply String.eqb_eq].
  - split; [by apply list_elem_of_In | by apply String.eqb_eq].
Qed.

Lemma validate_name_page_run (w : Wizard) :
  currentPage w = uiNameImageWizardPage →
  IOUDeviceWizard.validateCurrentPage w
  = if existsb (λ iou_device, String.eqb (name iou_device) (Qt.text (uiNameLineEdit w)))
               (values (_iou_devices w))
    then Returned false
           (with_message_box Qt.Critical "Name"
              (Qt.text (uiNameLineEdit w) +:+ " is already used, please choose another name")
              w)
    else Returned true w.
Proof.
  intros Hpage.
  assert (DeviceWizard.validateCurrentPage w = Returned true w) as Hbase
    by (apply validate_other_page_base; by rewrite Hpage).
  unfold IOUDeviceWizard.validateCurrentPage.
  unfold mbind at 1 2. unfold M_bind at 1 2. rewrite Hbase. simpl.
  unfold self at 1. rewrite Hpage. simpl.
  unfold mbind at 1. unfold M_bind at 1. rewrite name_loop.
  destruct (existsb _ _); [done|].
  run. by rewrite Hpage.
Qed.

(** C8: on the name and image page.  If a configured device carries exactly
    the entered name, character for character, the call shows a critical
    message box and returns [False]; if none does, it returns [True] and
    nothing has changed. *)
Theorem validate_name_page (w : Wizard) :
  currentPage w = uiNameImageWizardPage →
  let entered := Qt.text (uiNameLineEdit w) in
  ((∃ dev : Settings, dev ∈ values (_iou_devices w) ∧ name dev = entered) →
   IOUDeviceWizard.validateCurrentPage w
   = Returned false
       (with_message_box Qt.Critical "Name"
          (entered +:+ " is already used, please choose another name") w))
  ∧ ((∀ dev : Settings, dev ∈ values (_iou_devices w) → name dev ≠ entered) →
     IOUDeviceWizard.validateCurrentPage w = Returned true w).
Proof.
  intros Hpage entered. rewrite (validate_name_page_run w Hpage). fold entered.
  split.
  - intros Htaken. apply name_taken_iff in Htaken. by rewrite Htaken.
  - intros Hfree.
    destruct (existsb _ (values (_iou_devices w))) eqn:Hex; [|done].
    apply name_taken_iff in Hex as (dev & Hin & Heq). by destruct (Hfree dev Hin).
Qed.

Lemma validate_name_page_witness :
  IOUDeviceWizard.validateCurrentPage
    (Sample.wizard true false false "R1" uiNameImageWizardPage Sample.registry)
  = Returned false
      (with_message_box Qt.Critical "Name" "R1 is already used, please choose another name"
         (Sample.wizard true false false "R1" uiNameImageWizardPage Sample.registry))
  ∧ IOUDeviceWizard.validateCurrentPage
      (Sample.wizard true false false "R3" uiNameImageWizardPage Sample.registry)
    = Returned true (Sample.wizard true false false "R3" uiNameImageWizardPage Sample.registry).
Proof.
  split.
  - refine (proj1 (validate_name_page
                     (Sample.wizard true false false "R1" uiNameImageWizardPage
                                    Sample.registry) _) _).
    + reflexivity.
    + exists (Sample.device "R1"). split; [|reflexivity].
      apply list_elem_of_here.
  - refine (proj2 (validate_name_page
                     (Sample.wizard true false false "R3" uiNameImageWizardPage
                                    Sample.registry) _) _).
    + reflexivity.
    + intros dev Hin.
      apply list_elem_of_In in Hin. simpl in Hin.
      destruct Hin as [<- | [<- | []]]; discriminate.
Defined.

(** ** The combo-box index-change handler *)

(** Subscripting a falsy item never succeeds: [None] and falsy scalars
    cannot be subscripted, and an empty [dict] has no "filename". *)
Lemma falsy_has_no_filename (item : option Py.value) :
  Py.truthy item = false →
  ∃ e : Py.exn, Py.getitem_opt item "filename" = inl e.
Proof.
  destruct item as [[a|d]|]; simpl; intros Hfalsy; eauto.
  apply negb_false_iff, bool_decide_eq_true in Hfalsy. subst d.
  rewrite lookup_empty. eauto.
Qed.

(** C10 fails on the code: when the item data at the delivered index is
    falsy, the [else] branch subscripts it all the same, so the handler
    raises and the text field keeps its text. *)
Theorem index_changed_falsy_raises (w : Wizard) (index : Z) (combo_box line_edit : ref) :
  Py.truthy (Qt.itemData (combo_boxes w combo_box) index) = false →
  ∃ e : Py.exn,
    DeviceWizard._imageListIndexChangedSlot index combo_box line_edit w = Raised e w.
Proof.
  intros Hfalsy. unfold DeviceWizard._imageListIndexChangedSlot. run.
  rewrite Hfalsy.
  destruct (falsy_has_no_filename _ Hfalsy) as [e ->].
  by exists e.
Qed.

Lemma index_changed_falsy_raises_witness :
  ∃ e : Py.exn,
    DeviceWizard._imageListIndexChangedSlot (-1)
      IOUDeviceWizard.uiIOUImageListComboBox IOUDeviceWizard.uiIOUImageLineEdit
      (Sample.wizard true false false "R1" uiNameImageWizardPage Sample.registry)
    = Raised e (Sample.wizard true false false "R1" uiNameImageWizardPage Sample.registry).
Proof.
  apply (index_changed_falsy_raises
           (Sample.wizard true false false "R1" uiNameImageWizardPage Sample.registry)).
  reflexivity.
Defined.

(** The index -1 a cleared combo box reports: [None["filename"]]. *)
Lemma index_changed_after_clear (w : Wizard) (combo_box line_edit : ref) :
  DeviceWizard._imageListIndexChangedSlot (-1) combo_box line_edit w
  = Raised Py.TypeError w.
Proof. reflexivity. Qed.

(** ** Completion of the image-list fetch *)

(** The wizard once the callback has taken the pending dialog. *)
Definition taken (w : Wizard) : Wizard := set__image_list_progress_dialog None w.

(** ... and accepted it. *)
Definition accepted (d : nat) (w : Wizard) : Wizard :=
  set_progress_dialogs (<[d := Qt.accept (progress_dialogs w d)]> (progress_dialogs w))
                       (taken w).

(** C6: a completion delivered while a fetch is pending.  If the user
    canceled the progress dialog, the callback returns and the wizard is as
    before except that no dialog is pending: no widget has changed and no
    message box is shown.  Otherwise, with the error flag set and a
    "message" field in the reply, the dialog is accepted, one critical
    message box carrying the message is shown, and combo boxes, line edits
    and buttons are as before. *)
Theorem fetch_completion_canceled_or_error
    (w : Wizard) (d : nat) (result : Py.reply) (error : bool) :
  _image_list_progress_dialog w = Some d →
  (Qt.wasCanceled (progress_dialogs w d) = true →
   DeviceWizard._getImagesFromServerCallback result error w = Returned tt (taken w)
   ∧ message_boxes (taken w) = message_boxes w
   ∧ combo_boxes (taken w) = combo_boxes w
   ∧ line_edits (taken w) = line_edits w
   ∧ buttons (taken w) = buttons w)
  ∧ (Qt.wasCanceled (progress_dialogs w d) = false → error = true →
     ∀ msg : Py.atom, Py.getitem_reply result "message" = inr msg →
     let text := "Error while getting the VMs: " +:+ Py.format_atom msg in
     let w' := with_message_box Qt.Critical "Images" text (accepted d w) in
     DeviceWizard._getImagesFromServerCallback result error w = Returned tt w'
     ∧ message_boxes w'
       = (message_boxes w
          ++ [{| Qt.icon := Qt.Critical; Qt.title := "Images"; Qt.message := text |}])%list
     ∧ combo_boxes w' = combo_boxes w
     ∧ line_edits w' = line_edits w
     ∧ buttons w' = buttons w).
Proof.
  intros Hpending. unfold DeviceWizard._getImagesFromServerCallback. run.
  rewrite Hpending. split.
  - intros ->. done.
  - intros -> -> msg ->. done.
Qed.

Lemma fetch_completion_canceled_or_error_witness :
  let w := state_of (DeviceWizard.loadImagesList "/iou/vms"
             (Sample.wizard false true false "R3" uiNameImageWizardPage Sample.registry)) in
  let canceled := state_of (on_dialog 0 Qt.cancel w) in
  let failure := Py.Value (Py.Dict {[ "message" := Py.AStr "404: Not found" ]}) in
  DeviceWizard._getImagesFromServerCallback failure true canceled
  = Returned tt (taken canceled)
  ∧ DeviceWizard._getImagesFromServerCallback failure true w
    = Returned tt
        (with_message_box Qt.Critical "Images" "Error while getting the VMs: 404: Not found"
           (accepted 0 w)).
Proof.
  intros w canceled failure. split.
  - refine (proj1 (proj1 (fetch_completion_canceled_or_error canceled 0%nat failure true _)
                         _)); reflexivity.
  - refine (proj1 (proj2 (fetch_completion_canceled_or_error w 0%nat failure true _) _ _
                         (Py.AStr "404: Not found") _));
      reflexivity.
Defined.

(** *** Repopulating the combo boxes *)

(** An image record: a [dict] whose "filename" is a [str]. *)
Definition image_record (vm : Py.value) : Prop :=
  ∃ filename : string, Py.getitem vm "filename" = inr (Py.AStr filename).

(** The combo-box entry the specification attaches to a record: the
    filename for display, the full record as data. *)
Definition is_entry_of (vm : Py.value) (item : string * Py.value) : Prop :=
  Py.getitem vm "filename" = inr (Py.AStr item.1) ∧ item.2 = vm.

(** The inner loop of the callback. *)
Definition add_images (combo_box : ref) (vms : list Py.value) : M unit :=
  for_in vms
         (λ vm,
            filename ← eval (Py.getitem vm "filename");
            t ← eval (Py.as_QString filename);
            on_combo combo_box (Qt.addItem t vm)).

(** The body of its outer loop. *)
Definition refill (result : Py.reply) (combo_box : ref) : M unit :=
  on_combo combo_box Qt.clear;;
  vms ← eval (Py.iterate result);
  add_images combo_box vms.

Lemma add_images_run (combo_box : ref) (vms : list Py.value) :
  Forall image_record vms →
  ∀ w : Wizard,
  ∃ (h : ref → Qt.QComboBox Py.value) (entries : list (string * Py.value)),
    add_images combo_box vms w = Returned tt (set_combo_boxes h w)
    ∧ Forall2 is_entry_of vms entries
    ∧ Qt.items (h combo_box) = (Qt.items (combo_boxes w combo_box) ++ entries)%list
    ∧ ∀ other : ref, other ≠ combo_box → h other = combo_boxes w other.
Proof.
  induction 1 as [|vm vms [filename Hvm] _ IH]; intros w.
  - exists (combo_boxes w), []. split_and!; try done.
    + unfold add_images. simpl. unfold mret, M_ret. by destruct w.
    + by rewrite app_nil_r.
  - pose (w1 := set_combo_boxes
                  (<[combo_box := Qt.addItem filename vm (combo_boxes w combo_box)]>
                     (combo_boxes w)) w).
    destruct (IH w1) as (h & entries & Hrun & Hentries & Hitems & Hother).
    exists h, ((filename, vm) :: entries). split_and!.
    + unfold add_images in *. simpl. run. rewrite Hvm. simpl.
      fold w1. by rewrite Hrun.
    + by constructor.
    + rewrite Hitems. unfold w1. simpl. rewrite fn_lookup_insert. simpl.
      by rewrite <- app_assoc.
    + intros other Hne. rewrite (Hother other Hne). unfold w1. simpl.
      by rewrite fn_lookup_insert_ne.
Qed.

Lemma refill_run (vms : list Py.value) (combo_box : ref) :
  Forall image_record vms →
  ∀ w : Wizard,
  ∃ (h : ref → Qt.QComboBox Py.value) (entries : list (string * Py.value)),
    refill (Py.List vms) combo_box w = Returned tt (set_combo_boxes h w)
    ∧ Forall2 is_entry_of vms entries
    ∧ Qt.items (h combo_box) = entries
    ∧ ∀ other : ref, other ≠ combo_box → h other = combo_boxes w other.
Proof.
  intros Hvms w.
  pose (w1 := set_combo_boxes
                (<[combo_box := Qt.clear (combo_boxes w combo_box)]> (combo_boxes w)) w).
  destruct (add_images_run combo_box vms Hvms w1)
    as (h & entries & Hrun & Hentries & Hitems & Hother).
  exists h, entries. split_and!.
  - exact Hrun.
  - done.
  - rewrite Hitems. unfold w1. simpl. by rewrite fn_lookup_insert.
  - intros other Hne. rewrite (Hother other Hne). unfold w1. simpl.
    by rewrite fn_lookup_insert_ne.
Qed.

Lemma refill_all_run (vms : list Py.value) (combos : list ref) :
  Forall image_record vms →
  ∀ w : Wizard,
  ∃ h : ref → Qt.QComboBox Py.value,
    for_in combos (refill (Py.List vms)) w = Returned tt (set_combo_boxes h w)
    ∧ (∀ c : ref, c ∈ combos → Forall2 is_entry_of vms (Qt.items (h c)))
    ∧ (∀ c : ref, c ∉ combos → h c = combo_boxes w c).
Proof.
  intros Hvms. induction combos as [|combo_box combos IH]; intros w.
  - exists (combo_boxes w). split_and!.
    + simpl. unfold mret, M_ret. by destruct w.
    + intros c Hc. by apply elem_of_nil in Hc.
    + done.
  - destruct (refill_run vms combo_box Hvms w)
      as (h1 & entries & Hrun1 & Hentries & Hitems & Hother).
    destruct (IH (set_combo_boxes h1 w)) as (h & Hrun & Hin & Hout).
    exists h. split_and!.
    + simpl. run. rewrite Hrun1. by rewrite Hrun.
    + intros c Hc.
      destruct (decide (c ∈ combos)) as [Hrest | Hrest]; [by apply Hin|].
      apply elem_of_cons in Hc as [-> | Hc]; [|done].
      rewrite (Hout combo_box Hrest). simpl. by rewrite Hitems.
    + intros c Hc. apply not_elem_of_cons in Hc as [Hne Hrest].
      rewrite (Hout c Hrest). simpl. by apply Hother.
Qed.

Lemma callback_success_run (w : Wizard) (d : nat) (vms : list Py.value) :
  _image_list_progress_dialog w = Some d →
  Qt.wasCanceled (progress_dialogs w d) = false →
  Forall image_record vms →
  ∃ h : ref → Qt.QComboBox Py.value,
    DeviceWizard._getImagesFromServerCallback (Py.List vms) false w
    = Returned tt (set_combo_boxes h (accepted d w))
    ∧ (∀ c : ref, c ∈ _images_combo_boxes w →
       Forall2 is_entry_of vms (Qt.items (h c)))
    ∧ (∀ c : ref, c ∉ _images_combo_boxes w → h c = combo_boxes w c).
Proof.
  intros Hpending Hshown Hvms.
  destruct (refill_all_run vms (elements (_images_combo_boxes w)) Hvms (accepted d w))
    as (h & Hrun & Hin & Hout).
  exists h. split_and!.
  - unfold DeviceWizard._getImagesFromServerCallback.
    unfold mbind at 1 2. unfold M_bind at 1 2. unfold self at 1, modify at 1.
    rewrite Hpending, Hshown.
    unfold mbind at 1. unfold M_bind at 1. unfold on_dialog at 1, modify at 1.
    exact Hrun.
  - intros c Hc. apply Hin. by apply elem_of_elements.
  - intros c Hc. apply Hout. by rewrite elem_of_elements.
Qed.

(** C7: a completion without error, delivered while a fetch is pending and
    not canceled, whose reply is a list of image records.  The callback
    returns; every registered combo box then holds exactly one entry per
    record, in the order of the reply, each with the record's filename as
    text and the record as data, whatever it held before; the other combo
    boxes, and everything but the combo boxes and the accepted dialog, are
    untouched. *)
Theorem fetch_success_repopulates (w : Wizard) (d : nat) (vms : list Py.value) :
  _image_list_progress_dialog w = Some d →
  Qt.wasCanceled (progress_dialogs w d) = false →
  Forall image_record vms →
  ∃ h : ref → Qt.QComboBox Py.value,
    DeviceWizard._getImagesFromServerCallback (Py.List vms) false w
    = Returned tt (set_combo_boxes h (accepted d w))
    ∧ (∀ c : ref, c ∈ _images_combo_boxes w →
       Forall2 is_entry_of vms (Qt.items (h c)))
    ∧ (∀ c : ref, c ∉ _images_combo_boxes w → h c = combo_boxes w c).
Proof. exact (callback_success_run w d vms). Qed.

Lemma fetch_success_repopulates_witness :
  let w := state_of (DeviceWizard.loadImagesList "/iou/vms"
             (Sample.wizard true false false "R1" uiNameImageWizardPage Sample.registry)) in
  ∃ h : ref → Qt.QComboBox Py.value,
    DeviceWizard._getImagesFromServerCallback
      (Py.List [Sample.record "i86bi-linux-l3.bin"; Sample.record "vios-l2.bin"]) false w
    = Returned tt (set_combo_boxes h (accepted 0 w))
    ∧ (∀ c : ref, c ∈ _images_combo_boxes w →
       Forall2 is_entry_of [Sample.record "i86bi-linux-l3.bin"; Sample.record "vios-l2.bin"]
               (Qt.items (h c)))
    ∧ (∀ c : ref, c ∉ _images_combo_boxes w → h c = combo_boxes w c).
Proof.
  intros w.
  apply (fetch_success_repopulates w 0%nat
           [Sample.record "i86bi-linux-l3.bin"; Sample.record "vios-l2.bin"]).
  - reflexivity.
  - reflexivity.
  - repeat constructor.
    + by exists "i86bi-linux-l3.bin".
    + by exists "vios-l2.bin".
Defined.

(** ** Visibility of the browse buttons *)

(** C9, as stated, fails: with remote not selected, the browse button of a
    group that [addImageSelector] has just registered is hidden. *)
Lemma browse_button_hidden_after_registration :
  let w := Sample.blank true false false "R1" uiNameImageWizardPage Sample.registry in
  let w' := state_of (DeviceWizard.addImageSelector
                        IOUDeviceWizard.uiExistingImageRadioButton
                        IOUDeviceWizard.uiIOUImageListComboBox
                        IOUDeviceWizard.uiIOUImageLineEdit
                        IOUDeviceWizard.uiIOUImageToolButton
                        (λ _, None) w) in
  ¬ (Qt.isChecked (uiRemoteRadioButton w') = false →
     Qt.button_visible (buttons w' IOUDeviceWizard.uiIOUImageToolButton) = true).
Proof.
  intros w w' Hclaim.
  specialize (Hclaim eq_refl). vm_compute in Hclaim. discriminate.
Qed.

(** Showing or hiding every button of a list. *)
Lemma set_buttons_visible_run (visible : bool) (browsers : list ref) :
  ∀ w : Wizard,
  ∃ h : ref → Qt.QAbstractButton,
    for_in browsers (λ button, on_button button (Qt.button_setVisible visible)) w
    = Returned tt (set_buttons h w)
    ∧ (∀ b : ref, b ∈ browsers → Qt.button_visible (h b) = visible)
    ∧ (∀ b : ref, b ∉ browsers → h b = buttons w b).
Proof.
  induction browsers as [|button browsers IH]; intros w.
  - exists (buttons w). split_and!.
    + simpl. unfold mret, M_ret. by destruct w.
    + intros b Hb. by apply elem_of_nil in Hb.
    + done.
  - pose (w1 := set_buttons
                  (<[button := Qt.button_setVisible visible (buttons w button)]> (buttons w))
                  w).
    destruct (IH w1) as (h & Hrun & Hin & Hout).
    exists h. split_and!.
    + exact Hrun.
    + intros b Hb.
      destruct (decide (b ∈ browsers)) as [Hrest | Hrest]; [by apply Hin|].
      apply elem_of_cons in Hb as [-> | Hb]; [|done].
      rewrite (Hout button Hrest). unfold w1. simpl. by rewrite fn_lookup_insert.
    + intros b Hb. apply not_elem_of_cons in Hb as [Hne Hrest].
      rewrite (Hout b Hrest). unfold w1. simpl. by rewrite fn_lookup_insert_ne.
Qed.

(** Whether it returns or raises, the existing-image slot leaves the browse
    button hidden when checked and shown when unchecked, and registers
    nothing. *)
Lemma existing_image_toggled_browser
    (checked : bool) (combo_box line_edit browser : ref) (w : Wizard) :
  let w' := state_of (DeviceWizard._existingImageToggledSlot
                        checked combo_box line_edit browser w) in
  buttons w' = <[browser := Qt.button_setVisible (negb checked) (buttons w browser)]> (buttons w)
  ∧ _images_browser_buttons w' = _images_browser_buttons w
  ∧ _images_combo_boxes w' = _images_combo_boxes w.
Proof.
  unfold DeviceWizard._existingImageToggledSlot. destruct checked; run; simpl.
  - destruct (0 <? _); [|done].
    destruct (Py.getitem_opt _ _) as [e|filename]; simpl; [done|].
    by destruct (Py.as_QString filename).
  - done.
Qed.

(** C9, amended: toggling the remote radio button returns and leaves every
    registered browse button hidden when it becomes checked and shown when
    it becomes unchecked, the other buttons being untouched; the
    existing-image slot hides the group's browse button when checked and
    shows it when unchecked; and [addImageSelector] registers the combo box
    and the browse button and, ending with that slot checked, leaves the
    browse button hidden whatever server is selected. *)
Theorem browse_button_visibility (w : Wizard) :
  (∀ checked : bool,
     ∃ h : ref → Qt.QAbstractButton,
       DeviceWizard._remoteServerToggledSlot checked w
       = Returned tt (set_buttons h (set_uiRemoteServersGroupBox checked w))
       ∧ (∀ b : ref, b ∈ _images_browser_buttons w →
          Qt.button_visible (h b) = negb checked)
       ∧ (∀ b : ref, b ∉ _images_browser_buttons w → h b = buttons w b))
  ∧ (∀ (checked : bool) (combo_box line_edit browser : ref),
       Qt.button_visible
         (buttons (state_of (DeviceWizard._existingImageToggledSlot
                               checked combo_box line_edit browser w)) browser)
       = negb checked)
  ∧ (∀ (radio_button combo_box line_edit browser : ref)
       (image_selector : Wizard → option string),
       let w' := state_of (DeviceWizard.addImageSelector
                             radio_button combo_box line_edit browser image_selector w) in
       _images_combo_boxes w' = _images_combo_boxes w ∪ {[combo_box]}
       ∧ _images_browser_buttons w' = _images_browser_buttons w ∪ {[browser]}
       ∧ Qt.button_visible (buttons w' browser) = false).
Proof.
  split_and!.
  - intros checked.
    destruct (set_buttons_visible_run (negb checked) (elements (_images_browser_buttons w))
                (set_uiRemoteServersGroupBox checked w)) as (h & Hrun & Hin & Hout).
    exists h. split_and!.
    + unfold DeviceWizard._remoteServerToggledSlot.
      destruct checked; run; simpl in *; exact Hrun.
    + intros b Hb. apply Hin. by apply elem_of_elements.
    + intros b Hb. simpl in Hout. apply Hout. by rewrite elem_of_elements.
  - intros checked combo_box line_edit browser.
    destruct (existing_image_toggled_browser checked combo_box line_edit browser w)
      as (-> & _ & _).
    by rewrite fn_lookup_insert.
  - intros radio_button combo_box line_edit browser image_selector w'. subst w'.
    unfold DeviceWizard.addImageSelector. run. cbv beta iota.
    change (uiLocalRadioButton (set__images_combo_boxes _ w)) with (uiLocalRadioButton w).
    destruct (Qt.isChecked (uiLocalRadioButton w)); unfold modify; cbv beta iota;
      match goal with
      | |- context [DeviceWizard._existingImageToggledSlot true ?c ?e ?b ?w1] =>
          destruct (existing_image_toggled_browser true c e b w1) as (Hb & Hbs & Hcs);
          rewrite Hb, Hbs, Hcs, fn_lookup_insert; done
      end.
Qed.

(** ** Two fetches in flight *)

(** A fetch started on a wizard that has a server: the call returns, the
    dialog it created is pending and on screen, and no selector widget has
    changed. *)
Lemma loadImagesList_run (endpoint : string) (s : Server) (w : Wizard) :
  _server w = Some s →
  ∃ w' : Wizard,
    DeviceWizard.loadImagesList endpoint w = Returned tt w'
    ∧ _image_list_progress_dialog w' = Some (dialogs_created w)
    ∧ progress_dialogs w' (dialogs_created w) = Qt.shown_dialog
    ∧ dialogs_created w' = S (dialogs_created w)
    ∧ _server w' = Some s
    ∧ _images_combo_boxes w' = _images_combo_boxes w
    ∧ combo_boxes w' = combo_boxes w
    ∧ requests w' = (requests w ++ [(s, endpoint)])%list.
Proof.
  intros Hserver. unfold DeviceWizard.loadImagesList, DeviceWizard.server_get. run.
  destruct (_image_list_progress_dialog w) as [d|]; simpl; rewrite Hserver;
    eexists; (split; [reflexivity|]); simpl; rewrite fn_lookup_insert; done.
Qed.

(** A completion delivered when no fetch is pending: the callback raises
    on [None.wasCanceled()]. *)
Lemma callback_without_pending (result : Py.reply) (error : bool) (w : Wizard) :
  _image_list_progress_dialog w = None →
  DeviceWizard._getImagesFromServerCallback result error w
  = Raised Py.AttributeError (taken w).
Proof.
  intros Hnone. unfold DeviceWizard._getImagesFromServerCallback. run.
  by rewrite Hnone.
Qed.

(** C1 fails on the code.  Two fetches are started before any completes.
    The completion of the first request, delivered late, is taken for the
    pending one: the callback returns and every registered combo box holds
    the records of the first reply.  The completion of the second request
    then finds no pending dialog and raises [AttributeError]; the combo
    boxes keep the records of the first reply. *)
Theorem stale_completion_is_applied
    (w : Wizard) (s : Server) (endpoint : string)
    (first_reply : list Py.value) (second_reply : Py.reply) (error : bool) :
  _server w = Some s →
  Forall image_record first_reply →
  let w2 := state_of (DeviceWizard.loadImagesList endpoint
                        (state_of (DeviceWizard.loadImagesList endpoint w))) in
  let first := DeviceWizard._getImagesFromServerCallback (Py.List first_reply) false w2 in
  let second := DeviceWizard._getImagesFromServerCallback second_reply error (state_of first) in
  returned first = Some tt
  ∧ (∀ c : ref, c ∈ _images_combo_boxes w →
     Forall2 is_entry_of first_reply (Qt.items (combo_boxes (state_of first) c)))
  ∧ raised second = Some Py.AttributeError
  ∧ combo_boxes (state_of second) = combo_boxes (state_of first).
Proof.
  intros Hserver Hrecords.
  destruct (loadImagesList_run endpoint s w Hserver)
    as (w1 & Hrun1 & _ & _ & _ & Hserver1 & Hcombos1 & _ & _).
  destruct (loadImagesList_run endpoint s w1 Hserver1)
    as (w2' & Hrun2 & Hpending & Hshown & _ & _ & Hcombos2 & _ & _).
  assert (Qt.wasCanceled (progress_dialogs w2' (dialogs_created w1)) = false) as Hlive
    by (by rewrite Hshown).
  destruct (callback_success_run w2' (dialogs_created w1) first_reply Hpending Hlive Hrecords)
    as (h & Hfirst & Hin & _).
  intros w2 first second.
  assert (w2 = w2') as Hw2 by (unfold w2; rewrite Hrun1; simpl; by rewrite Hrun2).
  assert (first = Returned tt (set_combo_boxes h (accepted (dialogs_created w1) w2')))
    as Hf by (unfold first; by rewrite Hw2).
  assert (second = Raised Py.AttributeError (taken (state_of first))) as Hs
    by (unfold second; apply callback_without_pending; by rewrite Hf).
  rewrite Hs, Hf. split_and!; try done.
  intros c Hc. apply Hin. by rewrite Hcombos2, Hcombos1.
Qed.

Lemma stale_completion_is_applied_witness :
  let w := Sample.wizard true false false "R1" uiNameImageWizardPage Sample.registry in
  let w2 := state_of (DeviceWizard.loadImagesList "/iou/vms"
                        (state_of (DeviceWizard.loadImagesList "/iou/vms" w))) in
  let first :=
    DeviceWizard._getImagesFromServerCallback
      (Py.List [Sample.record "i86bi-linux-l2.bin"]) false w2 in
  let second :=
    DeviceWizard._getImagesFromServerCallback Sample.second_reply false (state_of first) in
  returned first = Some tt
  ∧ (∀ c : ref, c ∈ _images_combo_boxes w →
     Forall2 is_entry_of [Sample.record "i86bi-linux-l2.bin"]
             (Qt.items (combo_boxes (state_of first) c)))
  ∧ raised second = Some Py.AttributeError
  ∧ combo_boxes (state_of second) = combo_boxes (state_of first).
Proof.
  intros w.
  apply (stale_completion_is_applied w (localServer Sample.registry) "/iou/vms"
           [Sample.record "i86bi-linux-l2.bin"] Sample.second_reply false).
  - reflexivity.
  - repeat constructor. by exists "i86bi-linux-l2.bin".
Defined.

(** The same run on the sample wizard, spelled out: after both completions
    the image combo box shows the first reply's single record, not the two
    records of the second reply. *)
Example stale_completion_on_sample :
  let w := Sample.wizard true false false "R1" uiNameImageWizardPage Sample.registry in
  let w2 := state_of (DeviceWizard.loadImagesList "/iou/vms"
                        (state_of (DeviceWizard.loadImagesList "/iou/vms" w))) in
  let first := DeviceWizard._getImagesFromServerCallback Sample.first_reply false w2 in
  let second :=
    DeviceWizard._getImagesFromServerCallback Sample.second_reply false (state_of first) in
  Qt.items (combo_boxes (state_of second) IOUDeviceWizard.uiIOUImageListComboBox)
  = [("i86bi-linux-l2.bin", Sample.record "i86bi-linux-l2.bin")]
  ∧ raised second = Some Py.AttributeError.
Proof. vm_compute. done. Qed.

(** * Further properties of the two classes *)

(** ** What a computation preserves *)

(** [m] keeps [P]: from a wizard that satisfies [P], the wizard [m] leaves
    satisfies it too, whether [m] returns or raises. *)
Definition preserves {A : Type} (P : Wizard → Prop) (m : M A) : Prop :=
  ∀ w : Wizard, P w → P (state_of (m w)).

Lemma preserves_ret {A : Type} (P : Wizard → Prop) (a : A) : preserves P (mret a).
Proof. by intros w Hw. Qed.

Lemma preserves_raise {A : Type} (P : Wizard → Prop) (e : Py.exn) :
  preserves P (raise e : M A).
Proof. by intros w Hw. Qed.

Lemma preserves_eval {A : Type} (P : Wizard → Prop) (r : Py.exn + A) :
  preserves P (eval r).
Proof. destruct r; [apply preserves_raise | apply preserves_ret]. Qed.

Lemma preserves_self (P : Wizard → Prop) : preserves P self.
Proof. by intros w Hw. Qed.

Lemma preserves_modify (P : Wizard → Prop) (f : Wizard → Wizard) :
  (∀ w : Wizard, P w → P (f w)) → preserves P (modify f).
Proof. intros Hf w Hw. by apply Hf. Qed.

Lemma preserves_bind {A B : Type} (P : Wizard → Prop) (m : M A) (k : A → M B) :
  preserves P m → (∀ a : A, preserves P (k a)) → preserves P (m ≫= k).
Proof.
  intros Hm Hk w Hw. specialize (Hm w Hw).
  unfold mbind, M_bind. destruct (m w) as [a w'|e w']; simpl in *; [by apply Hk | done].
Qed.

Lemma preserves_for_in {A : Type} (P : Wizard → Prop) (l : list A) (body : A → M unit) :
  (∀ x : A, preserves P (body x)) → preserves P (for_in l body).
Proof.
  intros Hbody. induction l as [|x l IH]; simpl.
  - apply preserves_ret.
  - apply preserves_bind; [apply Hbody | intros _; apply IH].
Qed.

Lemma preserves_for_in_return {A R : Type} (P : Wizard → Prop) (l : list A)
    (body : A → M (option R)) :
  (∀ x : A, preserves P (body x)) → preserves P (for_in_return l body).
Proof.
  intros Hbody. induction l as [|x l IH]; simpl.
  - apply preserves_ret.
  - apply preserves_bind; [apply Hbody|].
    intros [r|]; [apply preserves_ret | apply IH].
Qed.

(** Walks through a method body; what is left are the state updates. *)
Ltac preserve :=
  unfold on_combo, on_edit, on_button, on_dialog, on_remote_servers, on_type, message_box;
  repeat first
    [ apply preserves_ret
    | apply preserves_raise
    | apply preserves_eval
    | apply preserves_self
    | apply preserves_bind
    | apply preserves_for_in
    | apply preserves_for_in_return
    | progress intros
    | match goal with
      | |- preserves _ (if ?b then _ else _) => destruct b
      | |- preserves _ (match ?x with _ => _ end) => destruct x
      | |- preserves _ (let '(_, _) := ?x in _) => destruct x
      end ].

(** ** The calls a wizard receives *)

(** The methods of an IOU device wizard with their arguments, and the
    Cancel button of the pending progress dialog. *)
Inductive call : Type :=
| remoteServerToggled (checked : bool)
| loadBalanceToggled (checked : bool)
| initializePage (page : Page)
| validateCurrentPage
| addImageSelector (radio_button combo_box line_edit browser : ref)
                   (image_selector : Wizard → option string)
| imageBrowser (line_edit : ref) (image_selector : Wizard → option string)
| imageListIndexChanged (index : Z) (combo_box line_edit : ref)
| existingImageToggled (checked : bool) (combo_box line_edit browser : ref)
| loadImagesList (endpoint : string)
| getImagesFromServerCallback (result : Py.reply) (error : bool)
| imageLineEditTextChanged (text : string)
| getSettings
| cancelPressed.

(** Pressing Cancel cancels the pending progress dialog, if there is one. *)
Definition press_cancel : M unit :=
  w ← self;
  match _image_list_progress_dialog w with
  | Some d => on_dialog d Qt.cancel
  | None => mret tt
  end.

(** The wizard after a call, returned or raised. *)
Definition perform (c : call) (w : Wizard) : Wizard :=
  match c with
  | remoteServerToggled checked => state_of (DeviceWizard._remoteServerToggledSlot checked w)
  | loadBalanceToggled checked => state_of (DeviceWizard._loadBalanceToggledSlot checked w)
  | initializePage page => state_of (IOUDeviceWizard.initializePage page w)
  | validateCurrentPage => state_of (IOUDeviceWizard.validateCurrentPage w)
  | addImageSelector radio_button combo_box line_edit browser image_selector =>
      state_of (DeviceWizard.addImageSelector
                  radio_button combo_box line_edit browser image_selector w)
  | imageBrowser line_edit image_selector =>
      state_of (DeviceWizard._imageBrowserSlot line_edit image_selector w)
  | imageListIndexChanged index combo_box line_edit =>
      state_of (DeviceWizard._imageListIndexChangedSlot index combo_box line_edit w)
  | existingImageToggled checked combo_box line_edit browser =>
      state_of (DeviceWizard._existingImageToggledSlot checked combo_box line_edit browser w)
  | loadImagesList endpoint => state_of (DeviceWizard.loadImagesList endpoint w)
  | getImagesFromServerCallback result error =>
      state_of (DeviceWizard._getImagesFromServerCallback result error w)
  | imageLineEditTextChanged text =>
      state_of (IOUDeviceWizard._imageLineEditTextChangedSlot text w)
  | getSettings => state_of (IOUDeviceWizard.getSettings w)
  | cancelPressed => state_of (press_cancel w)
  end.

(** A session: calls one after the other. *)
Definition perform_all (calls : list call) (w : Wizard) : Wizard :=
  foldl (λ w' c, perform c w') w calls.

(** ** Preservation, method by method *)

Section Preservation.

Variable P : Wizard → Prop.

(** [P] does not look at the widgets behind references. *)
Hypothesis P_combo_boxes : ∀ h w, P w → P (set_combo_boxes h w).
Hypothesis P_line_edits : ∀ h w, P w → P (set_line_edits h w).
Hypothesis P_buttons : ∀ h w, P w → P (set_buttons h w).
(** ... nor at the remote-server widgets, the message boxes shown, the
    requests issued and the stored server. *)
Hypothesis P_group_box : ∀ b w, P w → P (set_uiRemoteServersGroupBox b w).
Hypothesis P_remote_servers : ∀ c w, P w → P (set_uiRemoteServersComboBox c w).
Hypothesis P_message_boxes : ∀ l w, P w → P (set_message_boxes l w).
Hypothesis P_requests : ∀ l w, P w → P (set_requests l w).
Hypothesis P_server : ∀ s w, P w → P (set__server s w).

Local Ltac frame :=
  preserve; apply preserves_modify; intros;
  first [ by apply P_combo_boxes | by apply P_line_edits | by apply P_buttons
        | by apply P_group_box | by apply P_remote_servers | by apply P_message_boxes
        | by apply P_requests | by apply P_server ].

Lemma preserves_remoteServerToggled checked :
  preserves P (DeviceWizard._remoteServerToggledSlot checked).
Proof. unfold DeviceWizard._remoteServerToggledSlot. frame. Qed.

Lemma preserves_loadBalanceToggled checked :
  preserves P (DeviceWizard._loadBalanceToggledSlot checked).
Proof. unfold DeviceWizard._loadBalanceToggledSlot. frame. Qed.

Lemma preserves_initializePage_base page :
  preserves P (DeviceWizard.initializePage page).
Proof. unfold DeviceWizard.initializePage. frame. Qed.

Lemma preserves_validateCurrentPage_base : preserves P DeviceWizard.validateCurrentPage.
Proof. unfold DeviceWizard.validateCurrentPage. frame. Qed.

Lemma preserves_validateCurrentPage : preserves P IOUDeviceWizard.validateCurrentPage.
Proof.
  unfold IOUDeviceWizard.validateCurrentPage.
  apply preserves_bind; [apply preserves_validateCurrentPage_base|].
  frame.
Qed.

Lemma preserves_imageBrowser line_edit image_selector :
  preserves P (DeviceWizard._imageBrowserSlot line_edit image_selector).
Proof. unfold DeviceWizard._imageBrowserSlot. frame. Qed.

Lemma preserves_imageListIndexChanged index combo_box line_edit :
  preserves P (DeviceWizard._imageListIndexChangedSlot index combo_box line_edit).
Proof. unfold DeviceWizard._imageListIndexChangedSlot. frame. Qed.

Lemma preserves_existingImageToggled checked combo_box line_edit browser :
  preserves P (DeviceWizard._existingImageToggledSlot checked combo_box line_edit browser).
Proof. unfold DeviceWizard._existingImageToggledSlot. frame. Qed.

Lemma preserves_getSettings : preserves P IOUDeviceWizard.getSettings.
Proof. unfold IOUDeviceWizard.getSettings. frame. Qed.

Section Fetch.

(** [P] does not look at the progress dialogs either. *)
Hypothesis P_progress_dialogs : ∀ h w, P w → P (set_progress_dialogs h w).
Hypothesis P_dialogs_created : ∀ n w, P w → P (set_dialogs_created n w).
Hypothesis P_pending : ∀ d w, P w → P (set__image_list_progress_dialog d w).

Local Ltac frame_fetch :=
  preserve; apply preserves_modify; intros;
  first [ by apply P_combo_boxes | by apply P_line_edits | by apply P_buttons
        | by apply P_group_box | by apply P_remote_servers | by apply P_message_boxes
        | by apply P_requests | by apply P_server
        | by apply P_progress_dialogs | by apply P_dialogs_created | by apply P_pending ].

Lemma preserves_loadImagesList endpoint : preserves P (DeviceWizard.loadImagesList endpoint).
Proof. unfold DeviceWizard.loadImagesList, DeviceWizard.server_get. frame_fetch. Qed.

Lemma preserves_getImagesFromServerCallback result error :
  preserves P (DeviceWizard._getImagesFromServerCallback result error).
Proof. unfold DeviceWizard._getImagesFromServerCallback. frame_fetch. Qed.

Lemma preserves_initializePage page : preserves P (IOUDeviceWizard.initializePage page).
Proof.
  unfold IOUDeviceWizard.initializePage.
  apply preserves_bind; [apply preserves_initializePage_base|]. intros _.
  apply preserves_bind; [frame|]. intros _.
  destruct (decide (page = uiNameImageWizardPage)); [|apply preserves_ret].
  apply preserves_bind; [apply preserves_self|]. intros w.
  apply preserves_bind; [frame | intros _; apply preserves_loadImagesList].
Qed.

Lemma preserves_press_cancel : preserves P press_cancel.
Proof. unfold press_cancel. frame_fetch. Qed.

End Fetch.

Section TypeChoice.

(** [P] does not look at the type combo box. *)
Hypothesis P_type : ∀ c w, P w → P (set_uiTypeComboBox c w).

Lemma preserves_imageLineEditTextChanged text :
  preserves P (IOUDeviceWizard._imageLineEditTextChangedSlot text).
Proof.
  unfold IOUDeviceWizard._imageLineEditTextChangedSlot.
  preserve; apply preserves_modify; intros; by apply P_type.
Qed.

End TypeChoice.

Section Registration.

(** [P] does not look at the registered selectors. *)
Hypothesis P_combos : ∀ s w, P w → P (set__images_combo_boxes s w).
Hypothesis P_browsers : ∀ s w, P w → P (set__images_browser_buttons s w).

Lemma preserves_addImageSelector radio_button combo_box line_edit browser image_selector :
  preserves P (DeviceWizard.addImageSelector
                 radio_button combo_box line_edit browser image_selector).
Proof.
  unfold DeviceWizard.addImageSelector.
  apply preserves_bind; [apply preserves_modify; intros; by apply P_combos|]. intros _.
  apply preserves_bind; [apply preserves_self|]. intros w.
  apply preserves_bind.
  { destruct (Qt.isChecked (uiLocalRadioButton w));
      unfold on_button; apply preserves_modify; intros; by apply P_buttons. }
  intros _.
  apply preserves_bind; [apply preserves_modify; intros; by apply P_browsers|]. intros _.
  apply preserves_existingImageToggled.
Qed.

End Registration.

End Preservation.

(** ** Registered selectors *)

(** The combo box and the browse button a call registers. *)
Definition registers_combo (c : call) : gset ref :=
  match c with
  | addImageSelector _ combo_box _ _ _ => {[combo_box]}
  | _ => ∅
  end.

Definition registers_browser (c : call) : gset ref :=
  match c with
  | addImageSelector _ _ _ browser _ => {[browser]}
  | _ => ∅
  end.

(** The two registries hold exactly these sets. *)
Definition registered (combos browsers : gset ref) (w : Wizard) : Prop :=
  _images_combo_boxes w = combos ∧ _images_browser_buttons w = browsers.

Lemma addImageSelector_registers
    (radio_button combo_box line_edit browser : ref)
    (image_selector : Wizard → option string) (w : Wizard) :
  registered (_images_combo_boxes w ∪ {[combo_box]}) (_images_browser_buttons w ∪ {[browser]})
    (state_of (DeviceWizard.addImageSelector
                 radio_button combo_box line_edit browser image_selector w)).
Proof.
  unfold registered, DeviceWizard.addImageSelector. run. cbv beta iota.
  change (uiLocalRadioButton (set__images_combo_boxes _ w)) with (uiLocalRadioButton w).
  destruct (Qt.isChecked (uiLocalRadioButton w)); unfold modify; cbv beta iota;
    match goal with
    | |- context [DeviceWizard._existingImageToggledSlot true ?c ?e ?b ?w1] =>
        destruct (existing_image_toggled_browser true c e b w1) as (_ & Hbs & Hcs);
        rewrite Hbs, Hcs; done
    end.
Qed.

Lemma perform_registered (c : call) (w : Wizard) :
  registered (_images_combo_boxes w ∪ registers_combo c)
             (_images_browser_buttons w ∪ registers_browser c)
             (perform c w).
Proof.
  assert (∀ (A : Type) (m : M A),
            preserves (registered (_images_combo_boxes w) (_images_browser_buttons w)) m →
            registered (_images_combo_boxes w ∪ ∅) (_images_browser_buttons w ∪ ∅)
                       (state_of (m w))) as Hkept.
  { intros A m Hm. rewrite !(right_id_L ∅ (∪)). by apply Hm. }
  destruct c; simpl;
    try (apply Hkept;
         first [ apply preserves_remoteServerToggled
               | apply preserves_loadBalanceToggled
               | apply preserves_initializePage
               | apply preserves_validateCurrentPage
               | apply preserves_imageBrowser
               | apply preserves_imageListIndexChanged
               | apply preserves_existingImageToggled
               | apply preserves_loadImagesList
               | apply preserves_getImagesFromServerCallback
               | apply preserves_imageLineEditTextChanged
               | apply preserves_getSettings
               | apply preserves_press_cancel ];
         by intros).
  apply addImageSelector_registers.
Qed.

(** X1: along any session the registries of image combo boxes and browse
    buttons hold what they held at the start together with what the
    [addImageSelector] calls of the session registered: no call ever
    unregisters a selector, and no other call registers one. *)
Theorem registered_selectors_accumulate (calls : list call) (w : Wizard) :
  _images_combo_boxes (perform_all calls w)
  = _images_combo_boxes w ∪ ⋃ (registers_combo <$> calls)
  ∧ _images_browser_buttons (perform_all calls w)
    = _images_browser_buttons w ∪ ⋃ (registers_browser <$> calls).
Proof.
  revert w. induction calls as [|c calls IH]; intros w; simpl.
  - by rewrite !(right_id_L ∅ (∪)).
  - destruct (IH (perform c w)) as [-> ->].
    destruct (perform_registered c w) as [-> ->].
    by rewrite !(assoc_L (∪)).
Qed.

(** ** The type combo box *)

(** The type combo box offers the two image types and one of them is
    current. *)
Definition type_choice_valid (w : Wizard) : Prop :=
  Qt.items (uiTypeComboBox w) = IOUDeviceWizard.available_types
  ∧ (Qt.currentIndex (uiTypeComboBox w) = 0 ∨ Qt.currentIndex (uiTypeComboBox w) = 1).

Lemma type_choice_text (w : Wizard) :
  type_choice_valid w →
  (Qt.currentIndex (uiTypeComboBox w) = 0 ∧ Qt.currentText (uiTypeComboBox w) = "L2 image")
  ∨ (Qt.currentIndex (uiTypeComboBox w) = 1 ∧ Qt.currentText (uiTypeComboBox w) = "L3 image").
Proof.
  unfold type_choice_valid, Qt.currentText, Qt.item_at, Qt.count.
  intros [Hitems [Hindex | Hindex]]; rewrite Hitems, Hindex; [left | right]; done.
Qed.

Lemma type_choice_text_changed (text : string) :
  preserves type_choice_valid (IOUDeviceWizard._imageLineEditTextChangedSlot text).
Proof.
  intros w [Hitems Hindex]. unfold IOUDeviceWizard._imageLineEditTextChangedSlot.
  destruct (Py.contains "l2" text); [|destruct (Py.contains "l3" text)]; run; simpl.
  - destruct (select_L2 _ Hitems) as [H0 _]. split; [done | by left].
  - destruct (select_L3 _ Hitems) as [H1 _]. split; [done | by right].
  - done.
Qed.

Lemma perform_type_choice (c : call) (w : Wizard) :
  type_choice_valid w → type_choice_valid (perform c w).
Proof.
  destruct c; unfold perform.
  - apply (preserves_remoteServerToggled type_choice_valid); by intros.
  - apply (preserves_loadBalanceToggled type_choice_valid); by intros.
  - apply (preserves_initializePage type_choice_valid); by intros.
  - apply (preserves_validateCurrentPage type_choice_valid); by intros.
  - apply (preserves_addImageSelector type_choice_valid); by intros.
  - apply (preserves_imageBrowser type_choice_valid); by intros.
  - apply (preserves_imageListIndexChanged type_choice_valid); by intros.
  - apply (preserves_existingImageToggled type_choice_valid); by intros.
  - apply (preserves_loadImagesList type_choice_valid); by intros.
  - apply (preserves_getImagesFromServerCallback type_choice_valid); by intros.
  - apply type_choice_text_changed.
  - apply (preserves_getSettings type_choice_valid); by intros.
  - apply (preserves_press_cancel type_choice_valid); by intros.
Qed.

(** X2: a wizard whose type combo box offers "L2 image" and "L3 image" with
    one of them current stays so along any session: the text-change handler
    only ever selects one of the two, and nothing else touches the box.  The
    current text is therefore always the one or the other. *)
Theorem type_choice_stays_valid (calls : list call) (w : Wizard) :
  type_choice_valid w →
  type_choice_valid (perform_all calls w)
  ∧ (Qt.currentText (uiTypeComboBox (perform_all calls w)) = "L2 image"
     ∨ Qt.currentText (uiTypeComboBox (perform_all calls w)) = "L3 image").
Proof.
  intros Hvalid.
  assert (type_choice_valid (perform_all calls w)) as Hend.
  { revert w Hvalid. induction calls as [|c calls IH]; intros w Hvalid; simpl; [done|].
    apply IH. by apply perform_type_choice. }
  split; [done|].
  destruct (type_choice_text _ Hend) as [[_ ->] | [_ ->]]; [by left | by right].
Qed.

Lemma type_choice_stays_valid_witness :
  let w := perform_all
             [imageLineEditTextChanged "/opt/iou/i86bi-linux-l3.bin";
              getImagesFromServerCallback Sample.first_reply false;
              imageLineEditTextChanged "notes.txt"]
             (Sample.wizard true false false "R1" uiNameImageWizardPage Sample.registry) in
  type_choice_valid w
  ∧ (Qt.currentText (uiTypeComboBox w) = "L2 image"
     ∨ Qt.currentText (uiTypeComboBox w) = "L3 image").
Proof.
  intros w.
  apply (type_choice_stays_valid
           [imageLineEditTextChanged "/opt/iou/i86bi-linux-l3.bin";
            getImagesFromServerCallback Sample.first_reply false;
            imageLineEditTextChanged "notes.txt"]
           (Sample.wizard true false false "R1" uiNameImageWizardPage Sample.registry)).
  split; [reflexivity | left; reflexivity].
Defined.

(** ** Progress dialogs *)

(** The dialogs created so far are the ones below [dialogs_created].  The
    pending dialog is one of them, and a dialog on screen is the pending one
    and has not been canceled. *)
Definition one_dialog (w : Wizard) : Prop :=
  (∀ d : nat, _image_list_progress_dialog w = Some d → (d < dialogs_created w)%nat)
  ∧ (∀ d : nat,
       (d < dialogs_created w)%nat →
       Qt.dialog_visible (progress_dialogs w d) = true →
       _image_list_progress_dialog w = Some d
       ∧ Qt.wasCanceled (progress_dialogs w d) = false).

Lemma one_dialog_loadImagesList (endpoint : string) :
  preserves one_dialog (DeviceWizard.loadImagesList endpoint).
Proof.
  intros w [Hpending Hvisible].
  unfold DeviceWizard.loadImagesList, DeviceWizard.server_get. run.
  destruct (_image_list_progress_dialog w) as [d0|] eqn:Hd0;
    destruct (_server w) as [s|] eqn:Hs; simpl; rewrite ?Hs; simpl.
  all: split; simpl; [intros d [= <-]; lia|]; intros d Hd.
  all: destruct (decide (dialogs_created w = d)) as [<- | Hne];
    [rewrite fn_lookup_insert; done | rewrite fn_lookup_insert_ne by done].
  all: try (destruct (decide (d0 = d)) as [<- | Hne0];
            [rewrite fn_lookup_insert; done | rewrite fn_lookup_insert_ne by done]).
  all: intros Hshown; destruct (Hvisible d) as [Heq _]; [lia | done | congruence].
Qed.

Lemma one_dialog_taken (w : Wizard) :
  one_dialog w →
  (∀ d : nat, _image_list_progress_dialog w = Some d →
              Qt.dialog_visible (progress_dialogs w d) = false
              ∨ Qt.wasCanceled (progress_dialogs w d) = true) →
  one_dialog (taken w).
Proof.
  intros [Hpending Hvisible] Hclosed. split; simpl; [done|].
  intros d Hd Hshown. destruct (Hvisible d Hd Hshown) as [Hd0 Hlive].
  destruct (Hclosed d Hd0); congruence.
Qed.

Lemma one_dialog_accepted (d : nat) (w : Wizard) :
  one_dialog w → _image_list_progress_dialog w = Some d → one_dialog (accepted d w).
Proof.
  intros [Hpending Hvisible] Hd0. split; simpl; [done|].
  intros d' Hd'.
  destruct (decide (d = d')) as [<- | Hne];
    [rewrite fn_lookup_insert; done | rewrite fn_lookup_insert_ne by done].
  intros Hshown. destruct (Hvisible d' Hd' Hshown) as [Hd1 _]. congruence.
Qed.

Lemma one_dialog_callback (result : Py.reply) (error : bool) :
  preserves one_dialog (DeviceWizard._getImagesFromServerCallback result error).
Proof.
  intros w Hw. unfold DeviceWizard._getImagesFromServerCallback.
  unfold mbind at 1 2. unfold M_bind at 1 2. unfold self at 1, modify at 1.
  destruct (_image_list_progress_dialog w) as [d|] eqn:Hd.
  - destruct (Qt.wasCanceled (progress_dialogs w d)) eqn:Hcanceled.
    + apply one_dialog_taken; [done|]. intros d' Hd'. right. congruence.
    + unfold mbind at 1. unfold M_bind at 1. unfold on_dialog at 1, modify at 1.
      match goal with
      | |- one_dialog (state_of (?m ?w1)) =>
          change w1 with (accepted d w);
          assert (preserves one_dialog m) as Hrest
      end.
      { preserve; apply preserves_modify; by intros. }
      apply Hrest. by apply one_dialog_accepted.
  - apply one_dialog_taken; [done|]. intros d' Hd'. congruence.
Qed.

Lemma one_dialog_initializePage (page : Page) :
  preserves one_dialog (IOUDeviceWizard.initializePage page).
Proof.
  unfold IOUDeviceWizard.initializePage.
  apply preserves_bind; [apply preserves_initializePage_base; by intros|]. intros _.
  apply preserves_bind; [preserve; apply preserves_modify; by intros|]. intros _.
  destruct (decide (page = uiNameImageWizardPage)); [|apply preserves_ret].
  apply preserves_bind; [apply preserves_self|]. intros w.
  apply preserves_bind; [preserve; apply preserves_modify; by intros|]. intros _.
  apply one_dialog_loadImagesList.
Qed.

Lemma one_dialog_press_cancel : preserves one_dialog press_cancel.
Proof.
  intros w Hw. unfold press_cancel. run.
  destruct (_image_list_progress_dialog w) as [d|] eqn:Hd; simpl; [|done].
  destruct Hw as [Hpending Hvisible]. split; simpl; [done|].
  intros d' Hd'.
  destruct (decide (d = d')) as [<- | Hne];
    [rewrite fn_lookup_insert; done | rewrite fn_lookup_insert_ne by done].
  by apply Hvisible.
Qed.

Lemma perform_one_dialog (c : call) (w : Wizard) :
  one_dialog w → one_dialog (perform c w).
Proof.
  destruct c; unfold perform.
  - apply (preserves_remoteServerToggled one_dialog); by intros.
  - apply (preserves_loadBalanceToggled one_dialog); by intros.
  - apply one_dialog_initializePage.
  - apply (preserves_validateCurrentPage one_dialog); by intros.
  - apply (preserves_addImageSelector one_dialog); by intros.
  - apply (preserves_imageBrowser one_dialog); by intros.
  - apply (preserves_imageListIndexChanged one_dialog); by intros.
  - apply (preserves_existingImageToggled one_dialog); by intros.
  - apply one_dialog_loadImagesList.
  - apply one_dialog_callback.
  - apply (preserves_imageLineEditTextChanged one_dialog); by intros.
  - apply (preserves_getSettings one_dialog); by intros.
  - apply one_dialog_press_cancel.
Qed.

(** X3: along any session at most one progress dialog is on screen.  From
    a wizard whose only dialog on screen, if any, is the pending one, every
    call keeps it so: [loadImagesList] rejects the pending dialog before it
    shows a new one, the callback takes the pending dialog off the wizard
    only once it is canceled or accepted, and no other method touches a
    dialog.  This holds as well when a call raises. *)
Theorem one_dialog_on_screen (calls : list call) (w : Wizard) :
  one_dialog w →
  let w' := perform_all calls w in
  one_dialog w'
  ∧ ∀ d1 d2 : nat,
      (d1 < dialogs_created w')%nat → (d2 < dialogs_created w')%nat →
      Qt.dialog_visible (progress_dialogs w' d1) = true →
      Qt.dialog_visible (progress_dialogs w' d2) = true →
      d1 = d2.
Proof.
  intros Hstart w'.
  assert (one_dialog w') as Hend.
  { subst w'. revert w Hstart.
    induction calls as [|c calls IH]; intros w Hstart; simpl; [done|].
    apply IH. by apply perform_one_dialog. }
  split; [done|].
  intros d1 d2 Hd1 Hd2 Hshown1 Hshown2.
  destruct Hend as [_ Hvisible].
  destruct (Hvisible d1 Hd1 Hshown1) as [H1 _].
  destruct (Hvisible d2 Hd2 Hshown2) as [H2 _].
  congruence.
Qed.

Lemma one_dialog_on_screen_witness :
  let w' := perform_all
              [loadImagesList "/iou/vms"; loadImagesList "/iou/vms"; cancelPressed;
               getImagesFromServerCallback Sample.first_reply false;
               initializePage uiNameImageWizardPage]
              (Sample.wizard true false false "R1" uiNameImageWizardPage Sample.registry) in
  one_dialog w'
  ∧ ∀ d1 d2 : nat,
      (d1 < dialogs_created w')%nat → (d2 < dialogs_created w')%nat →
      Qt.dialog_visible (progress_dialogs w' d1) = true →
      Qt.dialog_visible (progress_dialogs w' d2) = true →
      d1 = d2.
Proof.
  apply (one_dialog_on_screen
           [loadImagesList "/iou/vms"; loadImagesList "/iou/vms"; cancelPressed;
            getImagesFromServerCallback Sample.first_reply false;
            initializePage uiNameImageWizardPage]
           (Sample.wizard true false false "R1" uiNameImageWizardPage Sample.registry)).
  split.
  - intros d Hd. vm_compute in Hd. discriminate.
  - intros d Hd. vm_compute in Hd. lia.
Defined.

(** ** Entering and leaving the server page *)

(** X4: entering the server page, in the base class or in the IOU wizard
    (which fills the combo box a second time), leaves the remote-server
    combo box with exactly one entry per registered remote server, in the
    order of the registry, showing "host:port" and carrying the server; the
    first server is the current item, and an empty registry leaves the box
    empty with no current item.  Whatever the box held before is gone. *)
Theorem server_page_lists_registry (w : Wizard) :
  ∃ c : Qt.QComboBox Server,
    DeviceWizard.initializePage uiServerWizardPage w
    = Returned tt (set_uiRemoteServersComboBox c w)
    ∧ IOUDeviceWizard.initializePage uiServerWizardPage w
      = Returned tt (set_uiRemoteServersComboBox c w)
    ∧ Qt.items c = server_entry <$> values (remoteServers (servers w))
    ∧ Qt.itemData c (Qt.currentIndex c) = head (values (remoteServers (servers w))).
Proof. exact (initialize_server_page w). Qed.

(** The IOU wizard on the server page with remote checked and a server
    registered. *)
Lemma validate_server_page_remote (w : Wizard) :
  currentPage w = uiServerWizardPage →
  Qt.isChecked (uiRemoteRadioButton w) = true →
  remoteServers (servers w) ≠ [] →
  IOUDeviceWizard.validateCurrentPage w
  = Returned true
      (set__server (Qt.itemData (uiRemoteServersComboBox w)
                                (Qt.currentIndex (uiRemoteServersComboBox w))) w).
Proof.
  intros Hpage Hr Hs.
  destruct (validate_server_page_base w Hpage) as (_ & Hchosen & _).
  specialize (Hchosen Hr Hs).
  unfold IOUDeviceWizard.validateCurrentPage. run. rewrite Hchosen. simpl.
  apply is_empty_false in Hs.
  repeat (rewrite ?Hpage, ?Hr, ?Hs; simpl). reflexivity.
Qed.

(** The IOU wizard on the server page with remote not checked. *)
Lemma validate_server_page_local (w : Wizard) :
  currentPage w = uiServerWizardPage →
  Qt.isChecked (uiRemoteRadioButton w) = false →
  IOUDeviceWizard.validateCurrentPage w
  = Returned true (set__server (Some (localServer (servers w))) w).
Proof.
  intros Hpage Hr.
  destruct (validate_server_page_base w Hpage) as (_ & _ & Hlocal).
  specialize (Hlocal Hr).
  unfold IOUDeviceWizard.validateCurrentPage. run. rewrite Hlocal. simpl.
  repeat (rewrite ?Hpage, ?Hr; simpl). reflexivity.
Qed.

(** X5: the server page entered and left without touching the combo box.
    With remote checked and at least one remote server registered, the
    validation that follows the page's initialisation returns [True] and
    stores the first registered remote server. *)
Theorem first_remote_server_is_default
    (w : Wizard) (key : string) (first : Server) (others : list (string * Server)) :
  currentPage w = uiServerWizardPage →
  Qt.isChecked (uiRemoteRadioButton w) = true →
  remoteServers (servers w) = (key, first) :: others →
  let entered := state_of (IOUDeviceWizard.initializePage uiServerWizardPage w) in
  IOUDeviceWizard.validateCurrentPage entered
  = Returned true (set__server (Some first) entered).
Proof.
  intros Hpage Hremote Hregistry entered.
  destruct (initialize_server_page w) as (c & _ & Hrun & _ & Hcurrent).
  assert (entered = set_uiRemoteServersComboBox c w) as ->
    by (unfold entered; by rewrite Hrun).
  rewrite Hregistry in Hcurrent. simpl in Hcurrent.
  rewrite validate_server_page_remote; simpl; try done.
  - by rewrite Hcurrent.
  - by rewrite Hregistry.
Qed.

Lemma first_remote_server_is_default_witness :
  let w := Sample.wizard false true false "R3" uiServerWizardPage Sample.registry in
  let entered := state_of (IOUDeviceWizard.initializePage uiServerWizardPage w) in
  IOUDeviceWizard.validateCurrentPage entered
  = Returned true (set__server (Some Sample.remote1) entered).
Proof.
  intros w.
  apply (first_remote_server_is_default w "10.0.0.5:8000" Sample.remote1
           [("gns3.example.org:8001", Sample.remote2)]);
    reflexivity.
Defined.

(** ** Starting a fetch *)

(** X6: a fetch started on a wizard that has a server stored.  The call
    returns; the dialog that was pending, if any, has been rejected; a new
    dialog, distinct from every earlier one, is pending and on screen;
    exactly one request, for the given endpoint on the stored server, has
    been handed to the HTTP client; and combo boxes, line edits, buttons and
    message boxes are as before. *)
Theorem loadImagesList_supersedes (endpoint : string) (s : Server) (w : Wizard) :
  _server w = Some s →
  one_dialog w →
  ∃ w' : Wizard,
    DeviceWizard.loadImagesList endpoint w = Returned tt w'
    ∧ _image_list_progress_dialog w' = Some (dialogs_created w)
    ∧ progress_dialogs w' (dialogs_created w) = Qt.shown_dialog
    ∧ (∀ d : nat, _image_list_progress_dialog w = Some d →
                  d ≠ dialogs_created w
                  ∧ progress_dialogs w' d = Qt.reject (progress_dialogs w d))
    ∧ requests w' = (requests w ++ [(s, endpoint)])%list
    ∧ combo_boxes w' = combo_boxes w
    ∧ line_edits w' = line_edits w
    ∧ buttons w' = buttons w
    ∧ message_boxes w' = message_boxes w.
Proof.
  intros Hserver [Hpending _].
  unfold DeviceWizard.loadImagesList, DeviceWizard.server_get. run.
  destruct (_image_list_progress_dialog w) as [d0|] eqn:Hd0; simpl; rewrite Hserver;
    eexists; (split; [reflexivity|]); simpl; rewrite fn_lookup_insert;
    split_and!; try done.
  intros d [= <-].
  assert (d0 ≠ dialogs_created w) as Hne by (specialize (Hpending d0 eq_refl); lia).
  split; [done|].
  rewrite fn_lookup_insert_ne by done. by rewrite fn_lookup_insert.
Qed.

Lemma loadImagesList_supersedes_witness :
  let w := state_of (DeviceWizard.loadImagesList "/iou/vms"
             (Sample.wizard true false false "R1" uiNameImageWizardPage Sample.registry)) in
  ∃ w' : Wizard,
    DeviceWizard.loadImagesList "/iou/vms" w = Returned tt w'
    ∧ _image_list_progress_dialog w' = Some (dialogs_created w)
    ∧ progress_dialogs w' (dialogs_created w) = Qt.shown_dialog
    ∧ (∀ d : nat, _image_list_progress_dialog w = Some d →
                  d ≠ dialogs_created w
                  ∧ progress_dialogs w' d = Qt.reject (progress_dialogs w d))
    ∧ requests w' = (requests w ++ [(localServer Sample.registry, "/iou/vms")])%list
    ∧ combo_boxes w' = combo_boxes w
    ∧ line_edits w' = line_edits w
    ∧ buttons w' = buttons w
    ∧ message_boxes w' = message_boxes w.
Proof.
  intros w.
  apply (loadImagesList_supersedes "/iou/vms" (localServer Sample.registry) w).
  - reflexivity.
  - split.
    + intros d Hd. vm_compute in Hd. injection Hd as <-. vm_compute. lia.
    + intros d Hd Hshown. vm_compute in Hd.
      assert (d = 0%nat) as -> by lia. split; reflexivity.
Defined.

(** X7: a fetch started when no server is stored (the validation of the
    server page stores [None] when the remote-server combo box has no
    current item).  The call raises [AttributeError] on [None.get]; by then
    the new progress dialog has been created: it stays pending and on
    screen, and no request has been issued. *)
Theorem loadImagesList_without_server (endpoint : string) (w : Wizard) :
  _server w = None →
  ∃ w' : Wizard,
    DeviceWizard.loadImagesList endpoint w = Raised Py.AttributeError w'
    ∧ _image_list_progress_dialog w' = Some (dialogs_created w)
    ∧ progress_dialogs w' (dialogs_created w) = Qt.shown_dialog
    ∧ requests w' = requests w.
Proof.
  intros Hserver.
  unfold DeviceWizard.loadImagesList, DeviceWizard.server_get. run.
  destruct (_image_list_progress_dialog w) as [d0|]; simpl; rewrite Hserver;
    eexists; (split; [reflexivity|]); simpl; by rewrite fn_lookup_insert.
Qed.

Lemma loadImagesList_without_server_witness :
  let w := state_of (IOUDeviceWizard.validateCurrentPage
             (Sample.wizard false true false "R3" uiServerWizardPage Sample.registry)) in
  ∃ w' : Wizard,
    DeviceWizard.loadImagesList "/iou/vms" w = Raised Py.AttributeError w'
    ∧ _image_list_progress_dialog w' = Some (dialogs_created w)
    ∧ progress_dialogs w' (dialogs_created w) = Qt.shown_dialog
    ∧ requests w' = requests w.
Proof.
  intros w.
  apply (loadImagesList_without_server "/iou/vms" w).
  reflexivity.
Defined.

(** ** Selecting an image in a combo box *)

Lemma itemData_lookup {D : Type} (c : Qt.QComboBox D) (i : nat) (item : string * D) :
  Qt.items c !! i = Some item → Qt.itemData c (Z.of_nat i) = Some item.2.
Proof.
  intros Hitem. unfold Qt.itemData, Qt.item_at, Qt.count.
  pose proof (lookup_lt_Some _ _ _ Hitem) as Hlt.
  assert ((0 <=? Z.of_nat i) && (Z.of_nat i <? Z.of_nat (length (Qt.items c))) = true)
    as -> by (apply andb_true_iff; split; [apply Z.leb_le | apply Z.ltb_lt]; lia).
  by rewrite Nat2Z.id, Hitem.
Qed.

Lemma index_changed_run (w : Wizard) (index : Z) (combo_box line_edit : ref)
    (vm : Py.value) (filename : string) :
  Qt.itemData (combo_boxes w combo_box) index = Some vm →
  Py.getitem vm "filename" = inr (Py.AStr filename) →
  DeviceWizard._imageListIndexChangedSlot index combo_box line_edit w
  = Returned tt
      (set_line_edits
         (<[line_edit := Qt.setText filename (line_edits w line_edit)]> (line_edits w)) w).
Proof.
  intros Hitem Hfilename. unfold DeviceWizard._imageListIndexChangedSlot. run.
  rewrite Hitem.
  destruct (Py.truthy (Some vm)); unfold Py.getitem_opt; by rewrite Hfilename.
Qed.

(** X8: the index-change handler on an index whose item data is a record
    with a string filename.  The handler returns, the line edit shows the
    filename, its visibility is kept, and nothing else in the wizard
    changes. *)
Theorem index_changed_sets_filename (w : Wizard) (index : Z) (combo_box line_edit : ref)
    (vm : Py.value) (filename : string) :
  Qt.itemData (combo_boxes w combo_box) index = Some vm →
  Py.getitem vm "filename" = inr (Py.AStr filename) →
  let w' := set_line_edits
              (<[line_edit := Qt.setText filename (line_edits w line_edit)]> (line_edits w))
              w in
  DeviceWizard._imageListIndexChangedSlot index combo_box line_edit w = Returned tt w'
  ∧ Qt.text (line_edits w' line_edit) = filename
  ∧ Qt.edit_visible (line_edits w' line_edit) = Qt.edit_visible (line_edits w line_edit)
  ∧ ∀ other : ref, other ≠ line_edit → line_edits w' other = line_edits w other.
Proof.
  intros Hitem Hfilename w'. split_and!.
  - by apply index_changed_run with vm.
  - unfold w'. simpl. by rewrite fn_lookup_insert.
  - unfold w'. simpl. by rewrite fn_lookup_insert.
  - intros other Hne. unfold w'. simpl. by rewrite fn_lookup_insert_ne.
Qed.

Lemma index_changed_sets_filename_witness :
  let w := Sample.session [Sample.record "i86bi-linux-l3.bin"; Sample.record "vios-l2.bin"] 0
             (Sample.wizard true false false "R1" uiNameImageWizardPage Sample.registry) in
  let w' := set_line_edits
              (<[IOUDeviceWizard.uiIOUImageLineEdit :=
                   Qt.setText "vios-l2.bin" (line_edits w IOUDeviceWizard.uiIOUImageLineEdit)]>
                 (line_edits w)) w in
  DeviceWizard._imageListIndexChangedSlot 1 IOUDeviceWizard.uiIOUImageListComboBox
    IOUDeviceWizard.uiIOUImageLineEdit w = Returned tt w'
  ∧ Qt.text (line_edits w' IOUDeviceWizard.uiIOUImageLineEdit) = "vios-l2.bin"
  ∧ Qt.edit_visible (line_edits w' IOUDeviceWizard.uiIOUImageLineEdit)
    = Qt.edit_visible (line_edits w IOUDeviceWizard.uiIOUImageLineEdit)
  ∧ ∀ other : ref, other ≠ IOUDeviceWizard.uiIOUImageLineEdit →
                   line_edits w' other = line_edits w other.
Proof.
  intros w.
  apply (index_changed_sets_filename w 1 IOUDeviceWizard.uiIOUImageListComboBox
           IOUDeviceWizard.uiIOUImageLineEdit (Sample.record "vios-l2.bin") "vios-l2.bin");
    reflexivity.
Defined.

(** X9: an image list received and an entry picked.  After a completion
    without error whose reply is a list of image records, delivered while a
    fetch is pending and not canceled, the index-change handler called on a
    registered combo box with the position of a record returns and puts that
    record's filename in the line edit. *)
Theorem listed_image_can_be_selected
    (w : Wizard) (d : nat) (vms : list Py.value) (i : nat) (vm : Py.value)
    (filename : string) (combo_box line_edit : ref) :
  _image_list_progress_dialog w = Some d →
  Qt.wasCanceled (progress_dialogs w d) = false →
  Forall image_record vms →
  combo_box ∈ _images_combo_boxes w →
  vms !! i = Some vm →
  Py.getitem vm "filename" = inr (Py.AStr filename) →
  let listed :=
    state_of (DeviceWizard._getImagesFromServerCallback (Py.List vms) false w) in
  let picked :=
    DeviceWizard._imageListIndexChangedSlot (Z.of_nat i) combo_box line_edit listed in
  returned picked = Some tt
  ∧ Qt.text (line_edits (state_of picked) line_edit) = filename.
Proof.
  intros Hpending Hlive Hvms Hin Hvm Hfilename listed picked.
  destruct (callback_success_run w d vms Hpending Hlive Hvms) as (h & Hrun & Hentries & _).
  assert (listed = set_combo_boxes h (accepted d w)) as Hlisted
    by (unfold listed; by rewrite Hrun).
  destruct (Forall2_lookup_l _ _ _ _ _ (Hentries combo_box Hin) Hvm)
    as (item & Hitem & _ & Hdata).
  assert (Qt.itemData (combo_boxes listed combo_box) (Z.of_nat i) = Some vm) as Hdata'
    by (rewrite Hlisted; simpl; rewrite (itemData_lookup _ _ _ Hitem); by rewrite Hdata).
  unfold picked.
  rewrite (index_changed_run listed (Z.of_nat i) combo_box line_edit vm filename Hdata' Hfilename).
  simpl. by rewrite fn_lookup_insert.
Qed.

Lemma listed_image_can_be_selected_witness :
  let w := state_of (DeviceWizard.loadImagesList "/iou/vms"
             (Sample.wizard true false false "R1" uiNameImageWizardPage Sample.registry)) in
  let listed :=
    state_of (DeviceWizard._getImagesFromServerCallback
                (Py.List [Sample.record "i86bi-linux-l3.bin"; Sample.record "vios-l2.bin"])
                false w) in
  let picked :=
    DeviceWizard._imageListIndexChangedSlot (Z.of_nat 1)
      IOUDeviceWizard.uiIOUImageListComboBox IOUDeviceWizard.uiIOUImageLineEdit listed in
  returned picked = Some tt
  ∧ Qt.text (line_edits (state_of picked) IOUDeviceWizard.uiIOUImageLineEdit) = "vios-l2.bin".
Proof.
  intros w.
  apply (listed_image_can_be_selected w 0%nat
           [Sample.record "i86bi-linux-l3.bin"; Sample.record "vios-l2.bin"] 1%nat
           (Sample.record "vios-l2.bin") "vios-l2.bin").
  - reflexivity.
  - reflexivity.
  - repeat constructor; [by exists "i86bi-linux-l3.bin" | by exists "vios-l2.bin"].
  - vm_compute. set_solver.
  - reflexivity.
  - reflexivity.
Defined.

(** ** Existing image or new image *)

(** The wizard once the slot, checked, has shown the combo box and hidden
    the browse button and the line edit. *)
Definition selector_shown (combo_box line_edit browser : ref) (w : Wizard) : Wizard :=
  set_line_edits
    (<[line_edit := Qt.edit_setVisible false (line_edits w line_edit)]> (line_edits w))
    (set_buttons
       (<[browser := Qt.button_setVisible false (buttons w browser)]> (buttons w))
       (set_combo_boxes
          (<[combo_box := Qt.combo_setVisible true (combo_boxes w combo_box)]> (combo_boxes w))
          w)).

Lemma existing_image_checked_run (combo_box line_edit browser : ref) (w : Wizard) :
  DeviceWizard._existingImageToggledSlot true combo_box line_edit browser w
  = if 0 <? Qt.count (combo_boxes w combo_box) then
      match Py.getitem_opt
              (Qt.itemData (combo_boxes w combo_box)
                           (Qt.currentIndex (combo_boxes w combo_box))) "filename" with
      | inl e => Raised e (selector_shown combo_box line_edit browser w)
      | inr a =>
          match Py.as_QString a with
          | inl e => Raised e (selector_shown combo_box line_edit browser w)
          | inr t =>
              Returned tt
                (set_line_edits
                   (<[line_edit := Qt.setText t
                        (Qt.edit_setVisible false (line_edits w line_edit))]>
                      (line_edits (selector_shown combo_box line_edit browser w)))
                   (selector_shown combo_box line_edit browser w))
          end
      end
    else Returned tt (selector_shown combo_box line_edit browser w).
Proof.
  unfold DeviceWizard._existingImageToggledSlot. run. simpl.
  rewrite fn_lookup_insert.
  change (Qt.count (Qt.combo_setVisible true (combo_boxes w combo_box)))
    with (Qt.count (combo_boxes w combo_box)).
  destruct (0 <? Qt.count (combo_boxes w combo_box)); [|done].
  change (Qt.itemData (Qt.combo_setVisible true (combo_boxes w combo_box))
                      (Qt.currentIndex (Qt.combo_setVisible true (combo_boxes w combo_box))))
    with (Qt.itemData (combo_boxes w combo_box) (Qt.currentIndex (combo_boxes w combo_box))).
  destruct (Py.getitem_opt _ _) as [e|a]; simpl; [done|].
  destruct (Py.as_QString a) as [e|t]; simpl; [done|].
  unfold modify. simpl. by rewrite fn_lookup_insert.
Qed.

Lemma count_pos_iff {D : Type} (c : Qt.QComboBox D) :
  (0 <? Qt.count c) = negb (is_empty (Qt.items c)).
Proof. unfold Qt.count. by destruct (Qt.items c). Qed.

(** X10: the existing-image slot.  In every outcome the combo box is shown
    exactly when the option is checked, and the line edit and the browse
    button exactly when it is not; the entries of the combo box are kept.
    Unchecked, the slot returns and the line edit is empty.  Checked, on an
    empty combo box it returns and keeps the text; when the current item is
    a record with a string filename it returns and the line edit holds that
    filename; on a combo box that has items but no current item it raises
    [TypeError], the widgets being already shown and hidden. *)
Theorem existing_image_toggled
    (checked : bool) (combo_box line_edit browser : ref) (w : Wizard) :
  let o := DeviceWizard._existingImageToggledSlot checked combo_box line_edit browser w in
  let current := Qt.itemData (combo_boxes w combo_box)
                             (Qt.currentIndex (combo_boxes w combo_box)) in
  Qt.combo_visible (combo_boxes (state_of o) combo_box) = checked
  ∧ Qt.edit_visible (line_edits (state_of o) line_edit) = negb checked
  ∧ Qt.button_visible (buttons (state_of o) browser) = negb checked
  ∧ Qt.items (combo_boxes (state_of o) combo_box) = Qt.items (combo_boxes w combo_box)
  ∧ (checked = false →
     returned o = Some tt ∧ Qt.text (line_edits (state_of o) line_edit) = "")
  ∧ (checked = true → Qt.items (combo_boxes w combo_box) = [] →
     returned o = Some tt
     ∧ Qt.text (line_edits (state_of o) line_edit) = Qt.text (line_edits w line_edit))
  ∧ (checked = true →
     ∀ (vm : Py.value) (filename : string),
       Qt.items (combo_boxes w combo_box) ≠ [] →
       current = Some vm → Py.getitem vm "filename" = inr (Py.AStr filename) →
       returned o = Some tt ∧ Qt.text (line_edits (state_of o) line_edit) = filename)
  ∧ (checked = true → Qt.items (combo_boxes w combo_box) ≠ [] → current = None →
     raised o = Some Py.TypeError
     ∧ Qt.text (line_edits (state_of o) line_edit) = Qt.text (line_edits w line_edit)).
Proof.
  intros o current. subst o current. destruct checked.
  - rewrite existing_image_checked_run, count_pos_iff. unfold selector_shown.
    destruct (is_empty (Qt.items (combo_boxes w combo_box))) eqn:Hempty; simpl.
    + apply is_empty_true in Hempty. repeat rewrite fn_lookup_insert.
      split_and!; try done.
    + apply is_empty_false in Hempty.
      destruct (Qt.itemData _ _) as [vm0|] eqn:Hcurrent; simpl.
      * destruct (Py.getitem vm0 "filename") as [e|a] eqn:Hget; simpl;
          [|destruct (Py.as_QString a) as [e|t] eqn:Hstr; simpl];
          repeat rewrite fn_lookup_insert; split_and!; try done;
          intros _ vm filename _ [= <-] Hfilename; rewrite Hfilename in Hget;
          try discriminate.
        { injection Hget as <-. discriminate. }
        injection Hget as <-. simpl in Hstr. by injection Hstr as <-.
      * repeat rewrite fn_lookup_insert. split_and!; try done.
  - unfold DeviceWizard._existingImageToggledSlot. run. simpl.
    repeat rewrite fn_lookup_insert. simpl. repeat rewrite fn_lookup_insert. split_and!; try done.
Qed.


(** ** Entering the name and image page *)

(** The warning the IOU wizard shows when local is not checked. *)
Definition remote_image_warning : Qt.QMessageBox :=
  {| Qt.icon := Qt.Warning;
     Qt.title := "IOU image";
     Qt.message := "You have chosen to use a remote server, please provide the path to an IOU image located on this server!" |}.

Lemma initialize_name_page_run (w : Wizard) :
  IOUDeviceWizard.initializePage uiNameImageWizardPage w
  = DeviceWizard.loadImagesList "/iou/vms"
      (if Qt.isChecked (uiLocalRadioButton w) then w
       else set_message_boxes (message_boxes w ++ [remote_image_warning]) w).
Proof.
  unfold IOUDeviceWizard.initializePage, DeviceWizard.initializePage. run. simpl.
  by destruct (Qt.isChecked (uiLocalRadioButton w)).
Qed.

Lemma name_page_starts_fetch_run (w : Wizard) (s : Server) :
  _server w = Some s →
  ∃ w' : Wizard,
    IOUDeviceWizard.initializePage uiNameImageWizardPage w = Returned tt w'
    ∧ requests w' = (requests w ++ [(s, "/iou/vms")])%list.
Proof.
  intros Hserver. rewrite initialize_name_page_run.
  unfold DeviceWizard.loadImagesList, DeviceWizard.server_get. run.
  destruct (Qt.isChecked (uiLocalRadioButton w)); simpl;
    destruct (_image_list_progress_dialog w) as [d0|]; simpl; rewrite Hserver;
    eexists; (split; [reflexivity|]); done.
Qed.

(** X12: entering the name and image page of the IOU wizard with a server
    stored.  The call returns; a warning about remote images has been shown
    exactly when the local radio button is not checked (so for the cloud
    choice too); one request for "/iou/vms" has been issued to the stored
    server and its progress dialog is pending; the remote-server combo box
    is not touched. *)
Theorem name_page_starts_fetch (w : Wizard) (s : Server) :
  _server w = Some s →
  ∃ w' : Wizard,
    IOUDeviceWizard.initializePage uiNameImageWizardPage w = Returned tt w'
    ∧ message_boxes w'
      = (if Qt.isChecked (uiLocalRadioButton w) then message_boxes w
         else message_boxes w ++ [remote_image_warning])%list
    ∧ requests w' = (requests w ++ [(s, "/iou/vms")])%list
    ∧ _image_list_progress_dialog w' = Some (dialogs_created w)
    ∧ uiRemoteServersComboBox w' = uiRemoteServersComboBox w.
Proof.
  intros Hserver. rewrite initialize_name_page_run.
  unfold DeviceWizard.loadImagesList, DeviceWizard.server_get. run.
  destruct (Qt.isChecked (uiLocalRadioButton w)); simpl;
    destruct (_image_list_progress_dialog w) as [d0|]; simpl; rewrite Hserver;
    eexists; (split; [reflexivity|]); done.
Qed.

Lemma name_page_starts_fetch_witness :
  let w := Sample.wizard false true false "R3" uiNameImageWizardPage Sample.registry in
  ∃ w' : Wizard,
    IOUDeviceWizard.initializePage uiNameImageWizardPage w = Returned tt w'
    ∧ message_boxes w' = [remote_image_warning]
    ∧ requests w' = [(localServer Sample.registry, "/iou/vms")]
    ∧ _image_list_progress_dialog w' = Some 0%nat
    ∧ uiRemoteServersComboBox w' = uiRemoteServersComboBox w.
Proof.
  intros w.
  apply (name_page_starts_fetch w (localServer Sample.registry)).
  reflexivity.
Defined.

(** X13: from the server page to the name and image page.  The image list
    is requested from the server the validation of the server page stored:
    the local server when remote is not checked, the server of the combo
    box's current item when remote is checked and a remote server is
    registered. *)
Theorem fetch_goes_to_chosen_server (w : Wizard) :
  currentPage w = uiServerWizardPage →
  let validated := state_of (IOUDeviceWizard.validateCurrentPage w) in
  let entered := state_of (IOUDeviceWizard.initializePage uiNameImageWizardPage validated) in
  (Qt.isChecked (uiRemoteRadioButton w) = false →
   requests entered = (requests w ++ [(localServer (servers w), "/iou/vms")])%list)
  ∧ (Qt.isChecked (uiRemoteRadioButton w) = true →
     remoteServers (servers w) ≠ [] →
     ∀ chosen : Server,
       Qt.itemData (uiRemoteServersComboBox w) (Qt.currentIndex (uiRemoteServersComboBox w))
       = Some chosen →
       requests entered = (requests w ++ [(chosen, "/iou/vms")])%list).
Proof.
  intros Hpage validated entered. split.
  - intros Hremote.
    assert (validated = set__server (Some (localServer (servers w))) w) as Hvalidated
      by (unfold validated; by rewrite validate_server_page_local).
    destruct (name_page_starts_fetch_run validated (localServer (servers w)))
      as (w' & Hrun & Hrequests); [by rewrite Hvalidated|].
    unfold entered. rewrite Hrun. simpl. rewrite Hrequests. by rewrite Hvalidated.
  - intros Hremote Hregistry chosen Hchosen.
    assert (validated = set__server (Some chosen) w) as Hvalidated
      by (unfold validated; rewrite validate_server_page_remote by done;
          by rewrite Hchosen).
    destruct (name_page_starts_fetch_run validated chosen)
      as (w' & Hrun & Hrequests); [by rewrite Hvalidated|].
    unfold entered. rewrite Hrun. simpl. rewrite Hrequests. by rewrite Hvalidated.
Qed.

Lemma fetch_goes_to_chosen_server_witness :
  let w := state_of (IOUDeviceWizard.initializePage uiServerWizardPage
             (Sample.wizard false true false "R3" uiServerWizardPage Sample.registry)) in
  let validated := state_of (IOUDeviceWizard.validateCurrentPage w) in
  let entered := state_of (IOUDeviceWizard.initializePage uiNameImageWizardPage validated) in
  requests entered = [(Sample.remote1, "/iou/vms")].
Proof.
  intros w.
  refine (proj2 (fetch_goes_to_chosen_server w _) _ _ Sample.remote1 _).
  - reflexivity.
  - reflexivity.
  - discriminate.
  - reflexivity.
Defined.

(** ** Replies the callback cannot use *)

(** X14: a completion with the error flag set whose reply has no "message"
    to show (the key is missing, or the reply is a list).  With a fetch
    pending and not canceled, the callback raises the error of the failed
    subscript ([KeyError] or [TypeError]) after it has accepted the progress
    dialog: no message box is shown and no combo box changes. *)
Theorem error_reply_without_message
    (w : Wizard) (d : nat) (result : Py.reply) (e : Py.exn) :
  _image_list_progress_dialog w = Some d →
  Qt.wasCanceled (progress_dialogs w d) = false →
  Py.getitem_reply result "message" = inl e →
  DeviceWizard._getImagesFromServerCallback result true w = Raised e (accepted d w)
  ∧ message_boxes (accepted d w) = message_boxes w
  ∧ combo_boxes (accepted d w) = combo_boxes w
  ∧ Qt.result (progress_dialogs (accepted d w) d) = Some true.
Proof.
  intros Hpending Hlive Hmessage.
  unfold DeviceWizard._getImagesFromServerCallback. run.
  rewrite Hpending, Hlive, Hmessage. simpl.
  split_and!; try done. by rewrite fn_lookup_insert.
Qed.

Lemma error_reply_without_message_witness :
  let w := state_of (DeviceWizard.loadImagesList "/iou/vms"
             (Sample.wizard true false false "R1" uiNameImageWizardPage Sample.registry)) in
  DeviceWizard._getImagesFromServerCallback
    (Py.Value (Py.Dict {[ "status" := Py.AInt 404 ]})) true w
  = Raised Py.KeyError (accepted 0 w)
  ∧ message_boxes (accepted 0 w) = message_boxes w
  ∧ combo_boxes (accepted 0 w) = combo_boxes w
  ∧ Qt.result (progress_dialogs (accepted 0 w) 0%nat) = Some true.
Proof.
  intros w.
  apply (error_reply_without_message w 0%nat
           (Py.Value (Py.Dict {[ "status" := Py.AInt 404 ]})) Py.KeyError);
    reflexivity.
Defined.

(** A record the inner loop cannot add: it has no "filename" that can be
    read, or its "filename" is not a string. *)
Definition unusable_record (vm : Py.value) (e : Py.exn) : Prop :=
  Py.getitem vm "filename" = inl e
  ∨ ∃ a : Py.atom, Py.getitem vm "filename" = inr a ∧ Py.as_QString a = inl e.

Lemma add_images_raises (combo_box : ref) (good : list Py.value) (bad : Py.value)
    (rest : list Py.value) (e : Py.exn) :
  Forall image_record good →
  unusable_record bad e →
  ∀ w : Wizard,
  ∃ (h : ref → Qt.QComboBox Py.value) (entries : list (string * Py.value)),
    add_images combo_box (good ++ bad :: rest) w = Raised e (set_combo_boxes h w)
    ∧ Forall2 is_entry_of good entries
    ∧ Qt.items (h combo_box) = (Qt.items (combo_boxes w combo_box) ++ entries)%list
    ∧ ∀ other : ref, other ≠ combo_box → h other = combo_boxes w other.
Proof.
  intros Hgood Hbad.
  induction Hgood as [|vm good [filename Hvm] _ IH]; intros w.
  - exists (combo_boxes w), []. split_and!; try done.
    + unfold add_images. simpl. run.
      destruct Hbad as [-> | (a & -> & Ha)]; simpl; [by destruct w|].
      rewrite Ha. simpl. by destruct w.
    + by rewrite app_nil_r.
  - pose (w1 := set_combo_boxes
                  (<[combo_box := Qt.addItem filename vm (combo_boxes w combo_box)]>
                     (combo_boxes w)) w).
    destruct (IH w1) as (h & entries & Hrun & Hentries & Hitems & Hother).
    exists h, ((filename, vm) :: entries). split_and!.
    + unfold add_images in *. simpl. run. rewrite Hvm. simpl.
      fold w1. by rewrite Hrun.
    + by constructor.
    + rewrite Hitems. unfold w1. simpl. rewrite fn_lookup_insert. simpl.
      by rewrite <- app_assoc.
    + intros other Hne. rewrite (Hother other Hne). unfold w1. simpl.
      by rewrite fn_lookup_insert_ne.
Qed.

Lemma for_in_raises_first {A : Type} (x : A) (l : list A) (body : A → M unit)
    (w w' : Wizard) (e : Py.exn) :
  body x w = Raised e w' → for_in (x :: l) body w = Raised e w'.
Proof. intros Hbody. simpl. unfold mbind, M_bind. by rewrite Hbody. Qed.

(** X15: a completion without error whose list holds a record that cannot
    be used, after some that can.  With a fetch pending and not canceled and
    at least one combo box registered, the callback raises the error of that
    record.  One registered combo box is left holding the records that came
    before it and nothing else, every other combo box holds what it held
    before the reply, no message box is shown, and no fetch is pending any
    more. *)
Theorem unusable_record_stops_repopulation
    (w : Wizard) (d : nat) (good : list Py.value) (bad : Py.value)
    (rest : list Py.value) (e : Py.exn) :
  _image_list_progress_dialog w = Some d →
  Qt.wasCanceled (progress_dialogs w d) = false →
  _images_combo_boxes w ≠ ∅ →
  Forall image_record good →
  unusable_record bad e →
  ∃ (w' : Wizard) (c : ref),
    DeviceWizard._getImagesFromServerCallback (Py.List (good ++ bad :: rest)) false w
    = Raised e w'
    ∧ c ∈ _images_combo_boxes w
    ∧ Forall2 is_entry_of good (Qt.items (combo_boxes w' c))
    ∧ (∀ other : ref, other ≠ c → combo_boxes w' other = combo_boxes w other)
    ∧ message_boxes w' = message_boxes w
    ∧ _image_list_progress_dialog w' = None.
Proof.
  intros Hpending Hlive Hregistered Hgood Hbad.
  destruct (elements (_images_combo_boxes w)) as [|c cs] eqn:Helements.
  { apply elements_empty_inv in Helements. by apply leibniz_equiv in Helements. }
  pose (w1 := set_combo_boxes
                (<[c := Qt.clear (combo_boxes (accepted d w) c)]> (combo_boxes (accepted d w)))
                (accepted d w)).
  destruct (add_images_raises c good bad rest e Hgood Hbad w1)
    as (h & entries & Hrun & Hentries & Hitems & Hother).
  exists (set_combo_boxes h (accepted d w)), c. split_and!; try done.
  - unfold DeviceWizard._getImagesFromServerCallback.
    unfold mbind at 1 2. unfold M_bind at 1 2. unfold self at 1, modify at 1.
    rewrite Hpending, Hlive.
    unfold mbind at 1. unfold M_bind at 1. unfold on_dialog at 1, modify at 1.
    rewrite Helements.
    apply (for_in_raises_first c cs (refill (Py.List (good ++ bad :: rest)))).
    exact Hrun.
  - apply elem_of_elements. rewrite Helements. apply list_elem_of_here.
  - simpl. rewrite Hitems. unfold w1. simpl. by rewrite fn_lookup_insert.
  - intros other Hne. simpl. rewrite (Hother other Hne). unfold w1. simpl.
    by rewrite fn_lookup_insert_ne.
Qed.

Lemma unusable_record_stops_repopulation_witness :
  let w := state_of (DeviceWizard.loadImagesList "/iou/vms"
             (Sample.wizard true false false "R1" uiNameImageWizardPage Sample.registry)) in
  ∃ (w' : Wizard) (c : ref),
    DeviceWizard._getImagesFromServerCallback
      (Py.List ([Sample.record "i86bi-linux-l3.bin"]
                ++ Py.Dict {[ "path" := Py.AStr "/opt/iou/vios-l2.bin" ]}
                   :: [Sample.record "vios-l2.bin"])) false w
    = Raised Py.KeyError w'
    ∧ c ∈ _images_combo_boxes w
    ∧ Forall2 is_entry_of [Sample.record "i86bi-linux-l3.bin"] (Qt.items (combo_boxes w' c))
    ∧ (∀ other : ref, other ≠ c → combo_boxes w' other = combo_boxes w other)
    ∧ message_boxes w' = message_boxes w
    ∧ _image_list_progress_dialog w' = None.
Proof.
  intros w.
  apply (unusable_record_stops_repopulation w 0%nat
           [Sample.record "i86bi-linux-l3.bin"]
           (Py.Dict {[ "path" := Py.AStr "/opt/iou/vios-l2.bin" ]})
           [Sample.record "vios-l2.bin"] Py.KeyError).
  - reflexivity.
  - reflexivity.
  - intros Hempty.
    assert (IOUDeviceWizard.uiIOUImageListComboBox ∈ _images_combo_boxes w) as Hin
      by (vm_compute; set_solver).
    rewrite Hempty in Hin. by apply not_elem_of_empty in Hin.
  - repeat constructor. by exists "i86bi-linux-l3.bin".
  - left. reflexivity.
Defined.

(** ** The other entries of the settings *)

(** The settings [getSettings] returns, up to the resolved server. *)
Lemma getSettings_run (w : Wizard) :
  ¬ no_server_to_pick w →
  ∃ server' : string,
    IOUDeviceWizard.getSettings w
    = Returned
        (let L2 := String.eqb (Qt.currentText (uiTypeComboBox w)) "L2 image" in
         let path' := Qt.text (line_edits w IOUDeviceWizard.uiIOUImageLineEdit) in
         {| name := Qt.text (uiNameLineEdit w);
            path := path';
            image := Py.basename path';
            initial_config :=
              IOUDeviceWizard.initial_config_of
                (get_default_base_config w
                   (if L2 then _base_iou_l2_config_template w
                    else _base_iou_l3_config_template w));
            ethernet_adapters := if L2 then 4 else 2;
            serial_adapters := if L2 then 0 else 2;
            default_symbol := if L2 then ":/symbols/multilayer_switch.normal.svg"
                              else ":/symbols/router.normal.svg";
            category := if L2 then switches else routers;
            hover_symbol := if L2 then ":/symbols/multilayer_switch.selected.svg"
                            else ":/symbols/router.selected.svg";
            server := server' |}) w.
Proof.
  intros Hpick. unfold IOUDeviceWizard.getSettings. run. simpl.
  destruct (String.eqb _ _);
    destruct (Qt.isChecked (uiLocalRadioButton w)) eqn:Hl; eauto;
    destruct (Qt.isChecked (uiRemoteRadioButton w)) eqn:Hr; eauto;
    destruct (Qt.isChecked (uiLoadBalanceCheckBox w)) eqn:Hb; eauto;
    destruct (Servers_iter (servers w)) eqn:Hs; eauto;
    by destruct Hpick.
Qed.

(** X16: whenever a server can be resolved, the settings carry the text of
    the name line edit as name and the text of the image line edit as path,
    and their initial configuration is the content of the base
    configuration template of the selected type (the L2 template for
    "L2 image", the L3 template otherwise), or the empty string when that
    template cannot be read. *)
Theorem getSettings_texts (w : Wizard) :
  ¬ no_server_to_pick w →
  ∃ s : Settings,
    IOUDeviceWizard.getSettings w = Returned s w
    ∧ name s = Qt.text (uiNameLineEdit w)
    ∧ path s = Qt.text (line_edits w IOUDeviceWizard.uiIOUImageLineEdit)
    ∧ initial_config s
      = default ""
          (get_default_base_config w
             (if decide (Qt.currentText (uiTypeComboBox w) = "L2 image")
              then _base_iou_l2_config_template w
              else _base_iou_l3_config_template w)).
Proof.
  intros Hpick. destruct (getSettings_run w Hpick) as [server' Hrun].
  eexists. split; [exact Hrun|]. simpl. split_and!; try done.
  case_decide as Htype.
  - rewrite Htype. simpl. by destruct (get_default_base_config w _).
  - apply String.eqb_neq in Htype. rewrite Htype.
    by destruct (get_default_base_config w _).
Qed.

Lemma getSettings_texts_witness :
  let w := Sample.session [Sample.record "vios-l2.bin"] 0
             (Sample.wizard true false false "R1" uiNameImageWizardPage Sample.registry) in
  ∃ s : Settings,
    IOUDeviceWizard.getSettings w = Returned s w
    ∧ name s = "R1"
    ∧ path s = "vios-l2.bin"
    ∧ initial_config s = "".
Proof.
  intros w.
  apply (getSettings_texts w).
  intros (Hlocal & _). vm_compute in Hlocal. discriminate.
Defined.








(** The path picked in the witness above gives this image. *)
Example getSettings_image_of_picked_path :
  let w := perform_all
             [imageBrowser IOUDeviceWizard.uiIOUImageLineEdit
                           (λ _, Some "/opt/iou/images/i86bi-linux-l3.bin")]
             (Sample.wizard true false false "R1" uiNameImageWizardPage Sample.registry) in
  image <$> returned (IOUDeviceWizard.getSettings w) = Some "i86bi-linux-l3.bin".
Proof. reflexivity. Qed.

(** ** From the path to the settings *)

(** X18: the type the text-change handler selects is the type of the
    settings.  With the two image types in the type combo box and a server
    that can be resolved, the settings assembled right after the handler has
    seen a text in which "l2" occurs are those of a switch (four Ethernet
    adapters, no serial adapter); after a text in which "l3" occurs and "l2"
    does not, those of a router (two adapters of each kind). *)
Theorem path_decides_settings (w : Wizard) (text : string) :
  Qt.items (uiTypeComboBox w) = IOUDeviceWizard.available_types →
  ¬ no_server_to_pick w →
  let w' := state_of (IOUDeviceWizard._imageLineEditTextChangedSlot text w) in
  (occurs_in "l2" text →
   ∃ s : Settings,
     IOUDeviceWizard.getSettings w' = Returned s w'
     ∧ category s = switches ∧ ethernet_adapters s = 4 ∧ serial_adapters s = 0)
  ∧ (¬ occurs_in "l2" text → occurs_in "l3" text →
     ∃ s : Settings,
       IOUDeviceWizard.getSettings w' = Returned s w'
       ∧ category s = routers ∧ ethernet_adapters s = 2 ∧ serial_adapters s = 2).
Proof.
  intros Hitems Hpick w'.
  assert (¬ no_server_to_pick w') as Hpick'.
  { intros Hno. apply Hpick. revert Hno. unfold w', no_server_to_pick.
    unfold IOUDeviceWizard._imageLineEditTextChangedSlot.
    by destruct (Py.contains "l2" text), (Py.contains "l3" text). }
  destruct (getSettings_run w' Hpick') as [server' Hrun].
  rewrite <- !contains_true_iff. split.
  - intros H2. eexists. split; [exact Hrun|].
    assert (Qt.currentText (uiTypeComboBox w') = "L2 image") as ->; [|done].
    unfold w', IOUDeviceWizard._imageLineEditTextChangedSlot. rewrite H2.
    run. simpl. by apply select_L2.
  - intros H2 H3. apply not_true_is_false in H2.
    eexists. split; [exact Hrun|].
    assert (Qt.currentText (uiTypeComboBox w') = "L3 image") as ->; [|done].
    unfold w', IOUDeviceWizard._imageLineEditTextChangedSlot. rewrite H2, H3.
    run. simpl. by apply select_L3.
Qed.

Lemma path_decides_settings_witness :
  let w := Sample.wizard true false false "R1" uiNameImageWizardPage Sample.registry in
  let w' := state_of (IOUDeviceWizard._imageLineEditTextChangedSlot
                        "/opt/iou/i86bi-linux-l3-adventerprisek9.bin" w) in
  ∃ s : Settings,
    IOUDeviceWizard.getSettings w' = Returned s w'
    ∧ category s = routers ∧ ethernet_adapters s = 2 ∧ serial_adapters s = 2.
Proof.
  intros w.
  refine (proj2 (path_decides_settings w "/opt/iou/i86bi-linux-l3-adventerprisek9.bin" _ _)
                _ _).
  - reflexivity.
  - intros (Hlocal & _). vm_compute in Hlocal. discriminate.
  - apply contains_false_iff. reflexivity.
  - apply contains_true_iff. reflexivity.
Defined.

(** ** A fetch from start to end *)

(** The message boxes shown are exactly these. *)
Definition shown (boxes : list Qt.QMessageBox) (w : Wizard) : Prop :=
  message_boxes w = boxes.

(** The line edits and buttons are exactly these. *)
Definition edits_and_buttons (edits : ref → Qt.QLineEdit) (btns : ref → Qt.QAbstractButton)
    (w : Wizard) : Prop :=
  line_edits w = edits ∧ buttons w = btns.

(** X19: one fetch and its reply.  On a wizard with a server stored, a
    fetch followed by its completion without error, the reply being a list
    of image records, returns both times; then every registered combo box
    holds the records of the reply, no fetch is pending, the progress dialog
    of the fetch has been accepted and is off screen, one request has been
    issued, and no message box has been shown. *)
Theorem fetch_then_reply
    (w : Wizard) (s : Server) (endpoint : string) (vms : list Py.value) :
  _server w = Some s →
  Forall image_record vms →
  let loading := DeviceWizard.loadImagesList endpoint w in
  let done := DeviceWizard._getImagesFromServerCallback
                (Py.List vms) false (state_of loading) in
  returned loading = Some tt
  ∧ returned done = Some tt
  ∧ (∀ c : ref, c ∈ _images_combo_boxes w →
     Forall2 is_entry_of vms (Qt.items (combo_boxes (state_of done) c)))
  ∧ _image_list_progress_dialog (state_of done) = None
  ∧ progress_dialogs (state_of done) (dialogs_created w) = Qt.accept Qt.shown_dialog
  ∧ requests (state_of done) = (requests w ++ [(s, endpoint)])%list
  ∧ message_boxes (state_of done) = message_boxes w.
Proof.
  intros Hserver Hvms loading done.
  destruct (loadImagesList_run endpoint s w Hserver)
    as (w1 & Hrun1 & Hpending & Hshown & _ & _ & Hcombos & _ & Hrequests).
  assert (shown (message_boxes w) w1) as Hboxes.
  { replace w1 with (state_of (DeviceWizard.loadImagesList endpoint w))
      by (by rewrite Hrun1).
    apply (preserves_loadImagesList (shown (message_boxes w))); by intros. }
  assert (Qt.wasCanceled (progress_dialogs w1 (dialogs_created w)) = false) as Hlive
    by (by rewrite Hshown).
  destruct (callback_success_run w1 (dialogs_created w) vms Hpending Hlive Hvms)
    as (h & Hdone & Hin & _).
  assert (state_of loading = w1) as Hloading by (unfold loading; by rewrite Hrun1).
  unfold done. rewrite Hloading, Hdone. unfold loading. rewrite Hrun1. simpl.
  split_and!; try done.
  - intros c Hc. apply Hin. by rewrite Hcombos.
  - by rewrite fn_lookup_insert, Hshown.
Qed.

Lemma fetch_then_reply_witness :
  let w := Sample.wizard true false false "R1" uiNameImageWizardPage Sample.registry in
  let vms := [Sample.record "i86bi-linux-l3.bin"; Sample.record "vios-l2.bin"] in
  let loading := DeviceWizard.loadImagesList "/iou/vms" w in
  let done := DeviceWizard._getImagesFromServerCallback
                (Py.List vms) false (state_of loading) in
  returned loading = Some tt
  ∧ returned done = Some tt
  ∧ (∀ c : ref, c ∈ _images_combo_boxes w →
     Forall2 is_entry_of vms (Qt.items (combo_boxes (state_of done) c)))
  ∧ _image_list_progress_dialog (state_of done) = None
  ∧ progress_dialogs (state_of done) (dialogs_created w) = Qt.accept Qt.shown_dialog
  ∧ requests (state_of done)
    = (requests w ++ [(localServer Sample.registry, "/iou/vms")])%list
  ∧ message_boxes (state_of done) = message_boxes w.
Proof.
  intros w vms.
  apply (fetch_then_reply w (localServer Sample.registry) "/iou/vms" vms).
  - reflexivity.
  - repeat constructor; [by exists "i86bi-linux-l3.bin" | by exists "vios-l2.bin"].
Defined.

(** X20: a fetch the user cancels.  On a wizard with a server stored, a
    fetch, Cancel pressed on its progress dialog, then the completion,
    whatever the reply and the error flag: the callback returns, no fetch is
    pending, and combo boxes, line edits, buttons and message boxes are what
    they were before the fetch. *)
Theorem canceled_fetch_changes_nothing
    (w : Wizard) (s : Server) (endpoint : string) (result : Py.reply) (error : bool) :
  _server w = Some s →
  let canceled := state_of (press_cancel (state_of (DeviceWizard.loadImagesList endpoint w))) in
  let done := DeviceWizard._getImagesFromServerCallback result error canceled in
  returned done = Some tt
  ∧ _image_list_progress_dialog (state_of done) = None
  ∧ combo_boxes (state_of done) = combo_boxes w
  ∧ line_edits (state_of done) = line_edits w
  ∧ buttons (state_of done) = buttons w
  ∧ message_boxes (state_of done) = message_boxes w.
Proof.
  intros Hserver canceled done.
  destruct (loadImagesList_run endpoint s w Hserver)
    as (w1 & Hrun1 & Hpending & _ & _ & _ & _ & Hcombos & _).
  assert (shown (message_boxes w) w1 ∧ edits_and_buttons (line_edits w) (buttons w) w1)
    as [Hboxes [Hedits Hbuttons]].
  { replace w1 with (state_of (DeviceWizard.loadImagesList endpoint w))
      by (by rewrite Hrun1).
    split.
    - apply (preserves_loadImagesList (shown (message_boxes w))); by intros.
    - apply (preserves_loadImagesList (edits_and_buttons (line_edits w) (buttons w)));
        by intros. }
  assert (canceled
          = set_progress_dialogs
              (<[dialogs_created w := Qt.cancel (progress_dialogs w1 (dialogs_created w))]>
                 (progress_dialogs w1)) w1) as Hcanceled
    by (unfold canceled, press_cancel; rewrite Hrun1; run; simpl; by rewrite Hpending).
  assert (done = Returned tt (taken canceled)) as ->.
  { unfold done, DeviceWizard._getImagesFromServerCallback. run.
    rewrite Hcanceled. simpl. rewrite Hpending, fn_lookup_insert. done. }
  rewrite Hcanceled. simpl. split_and!; done.
Qed.

Lemma canceled_fetch_changes_nothing_witness :
  let w := Sample.wizard true false false "R1" uiNameImageWizardPage Sample.registry in
  let canceled := state_of (press_cancel (state_of (DeviceWizard.loadImagesList "/iou/vms" w))) in
  let done := DeviceWizard._getImagesFromServerCallback Sample.second_reply false canceled in
  returned done = Some tt
  ∧ _image_list_progress_dialog (state_of done) = None
  ∧ combo_boxes (state_of done) = combo_boxes w
  ∧ line_edits (state_of done) = line_edits w
  ∧ buttons (state_of done) = buttons w
  ∧ message_boxes (state_of done) = message_boxes w.
Proof.
  intros w.
  apply (canceled_fetch_changes_nothing w (localServer Sample.registry) "/iou/vms"
           Sample.second_reply false).
  reflexivity.
Defined.

(** ** Validation and its message boxes *)

Lemma validate_server_page_blocked (w : Wizard) :
  currentPage w = uiServerWizardPage →
  Qt.isChecked (uiRemoteRadioButton w) = true →
  remoteServers (servers w) = [] →
  IOUDeviceWizard.validateCurrentPage w
  = Returned false
      (with_message_box Qt.Critical "Remote server"
         "There is no remote server registered for this type of VM in preferences" w).
Proof.
  intros Hpage Hr Hs.
  destruct (validate_server_page_base w Hpage) as (Hblocked & _ & _).
  specialize (Hblocked Hr Hs).
  unfold IOUDeviceWizard.validateCurrentPage. run. by rewrite Hblocked.
Qed.

Lemma validate_other_page (w : Wizard) (n : nat) :
  currentPage w = otherPage n →
  IOUDeviceWizard.validateCurrentPage w = Returned true w.
Proof.
  intros Hpage.
  assert (DeviceWizard.validateCurrentPage w = Returned true w) as Hbase
    by (apply validate_other_page_base; by rewrite Hpage).
  unfold IOUDeviceWizard.validateCurrentPage. run. rewrite Hbase. simpl.
  repeat (rewrite ?Hpage; simpl). reflexivity.
Qed.

(** X21: the validation of the IOU wizard never raises, on any page, and it
    blocks exactly when it has told the user why.  When it returns [True] no
    message box has been shown; when it returns [False] exactly one critical
    message box has been added and the stored server is what it was.  In
    both cases combo boxes, line edits and buttons are untouched. *)
Theorem validation_blocks_with_a_message (w : Wizard) :
  ∃ (allowed : bool) (w' : Wizard),
    IOUDeviceWizard.validateCurrentPage w = Returned allowed w'
    ∧ (allowed = true → message_boxes w' = message_boxes w)
    ∧ (allowed = false →
       _server w' = _server w
       ∧ ∃ box : Qt.QMessageBox,
           message_boxes w' = (message_boxes w ++ [box])%list
           ∧ Qt.icon box = Qt.Critical)
    ∧ combo_boxes w' = combo_boxes w
    ∧ line_edits w' = line_edits w
    ∧ buttons w' = buttons w.
Proof.
  destruct (currentPage w) as [| |n] eqn:Hpage.
  - destruct (Qt.isChecked (uiRemoteRadioButton w)) eqn:Hremote.
    + destruct (remoteServers (servers w)) as [|entry registry] eqn:Hregistry.
      * eexists _, _. split; [by apply validate_server_page_blocked|].
        split_and!; try done. intros _. split; [done|]. by eexists.
      * eexists _, _. split.
        { apply validate_server_page_remote; try done. by rewrite Hregistry. }
        split_and!; done.
    + eexists _, _. split; [by apply validate_server_page_local|].
      split_and!; done.
  - rewrite (validate_name_page_run w Hpage).
    destruct (existsb _ _); eexists _, _; (split; [reflexivity|]);
      split_and!; try done.
    intros _. split; [done|]. by eexists.
  - eexists _, _. split; [by apply (validate_other_page w n)|].
    split_and!; done.
Qed.
